(** * SubX daily climatology: ensemble mean, day-of-year grouping,
      padding and periodic triangular smoothing

    Shallow embedding of [Python/create_climatology/createclim_ts_template.py].

    Conventions of the embedding.
    - Values are exact rationals ([Q], kept in lowest terms by [Qred]) and
      NaN is [None]: means are the means of real arithmetic.  The rounding
      of binary64 is not modelled, so equalities between computed values
      are stated with [==] on [Q].
    - A [DataArray] over [(dayofyear, L)] is the list of its rows in
      coordinate order, each row paired with its day-of-year label; a
      [DataArray] over [(S, L)] pairs each row with its start date; the
      array over [(M, S, L)] is kept time-major, one list of member rows
      per start date.  The lead axis [L] is given by its length [nL].
    - [ds.squeeze()] removes every axis of length 1: the point axes
      (level, latitude, longitude) and, for a single member, the member
      axis.  A time or lead axis of length 1 is removed as well and stays
      behind as a scalar coordinate: the arrays keep their list form here,
      and the statements that need the axis raise (lines 52, 54 and 75).
    - Writing the raw climatology to NetCDF and reading it back is the
      identity.
    - A Python exception is the left injection of [result]. *)

From Stdlib Require Import String Ascii.
From Stdlib Require Import List ZArith QArith Qreduction Qminmax Lia Lqa Bool.
From Stdlib Require Import Sorting.Sorted.
From Stdlib Require Import Sorting.Permutation.
Import ListNotations.

Local Open Scope Z_scope.

(** ** Exceptions *)

Inductive pyerror : Type :=
| ValueError
| IndexError
| KeyError
| TypeError
| InvalidIndexError.

Definition result (A : Type) : Type := (pyerror + A)%type.
Definition Ok {A : Type} (a : A) : result A := inr a.
Definition Err {A : Type} (e : pyerror) : result A := inl e.

Definition bind {A B : Type} (r : result A) (k : A -> result B) : result B :=
  match r with
  | inl e => inl e
  | inr a => k a
  end.

Notation "x <- r ;; k" := (bind r (fun x => k))
  (at level 61, r at next level, right associativity).

(** ** Calendar: dates and [S.dayofyear] *)

Module Calendar.

Record Date : Type := mkDate { year : Z; month : Z; day : Z }.

Definition is_leap_year (y : Z) : bool :=
  (y mod 4 =? 0) && (negb (y mod 100 =? 0) || (y mod 400 =? 0)).

Definition days_in_month (y m : Z) : Z :=
  if m =? 2 then (if is_leap_year y then 29 else 28)
  else if (m =? 4) || (m =? 6) || (m =? 9) || (m =? 11) then 30
  else 31.

(** Days of the year before the first of month [m]. *)
Definition days_before_month (y m : Z) : Z :=
  fold_right Z.add 0 (map (days_in_month y) (map Z.of_nat (seq 1 (Z.to_nat (m - 1))))).

(** 1-based ordinal of the date within its own year (proleptic Gregorian). *)
Definition dayofyear (d : Date) : Z := days_before_month (year d) (month d) + day d.

Definition valid_date (d : Date) : bool :=
  (1 <=? month d) && (month d <=? 12) &&
  (1 <=? day d) && (day d <=? days_in_month (year d) (month d)).


Definition date_ltb (a b : Date) : bool :=
  (year a <? year b)
  || ((year a =? year b)
      && ((month a <? month b) || ((month a =? month b) && (day a <? day b)))).

Definition date_leb (a b : Date) : bool := negb (date_ltb b a).

(** [strftime('%Y-%m-%d')] for years 0..9999. *)
Definition digit (n : Z) : ascii := ascii_of_nat (48 + Z.to_nat (n mod 10)).

Definition pad2 (n : Z) : string :=
  String (digit (n / 10)) (String (digit n) EmptyString).

Definition pad4 (n : Z) : string :=
  String (digit (n / 1000)) (String (digit (n / 100)) (pad2 n)).

Definition strftime_Ymd (d : Date) : string :=
  (pad4 (year d) ++ "-" ++ pad2 (month d) ++ "-" ++ pad2 (day d))%string.

End Calendar.
Import Calendar.

(** ** Skip-NaN arithmetic on cells *)

Definition cell : Type := option Q.
Definition row : Type := list cell.

(** The non-NaN values of a slice. *)
Fixpoint present (cs : list cell) : list Q :=
  match cs with
  | [] => []
  | None :: r => present r
  | Some v :: r => v :: present r
  end.

Definition Qsum (vs : list Q) : Q := fold_right Qplus 0%Q vs.

(** Mean of the non-NaN values; NaN when fewer than [min_count] of them. *)
Definition mean_min_count (min_count : nat) (cs : list cell) : cell :=
  let vs := present cs in
  if (length vs <? min_count)%nat then None
  else Some (Qred (Qsum vs / inject_Z (Z.of_nat (length vs)))).

(** [mean(skipna=True)]: NaN only for an all-NaN slice. *)
Definition nanmean (cs : list cell) : cell := mean_min_count 1 cs.

(** ** Labelled arrays and the xarray / pandas operations the script uses *)

Definition date_eqb (a b : Date) : bool :=
  (year a =? year b) && (month a =? month b) && (day a =? day b).

Section Index.
Context {K : Type}.
Variable ltb : K -> K -> bool.

(** Insertion into a strictly increasing list, dropping a repeated key. *)
Fixpoint insert_uniq (x : K) (l : list K) : list K :=
  match l with
  | [] => [x]
  | y :: r =>
      if ltb x y then x :: l
      else if ltb y x then y :: insert_uniq x r
      else l
  end.

Definition sort_uniq (l : list K) : list K := fold_right insert_uniq [] l.

Fixpoint index_equal (a b : list K) : bool :=
  match a, b with
  | [], [] => true
  | x :: a', y :: b' => negb (ltb x y) && negb (ltb y x) && index_equal a' b'
  | _, _ => false
  end.

(** [Index.union]: an equal or empty operand gives the other one back,
    otherwise the sorted distinct labels of both. *)
Definition index_union (a b : list K) : list K :=
  match a, b with
  | _, [] => a
  | [], _ => b
  | _, _ => if index_equal a b then a else sort_uniq (a ++ b)
  end.

Fixpoint has_duplicates (l : list K) : bool :=
  match l with
  | [] => false
  | x :: r => existsb (fun y => negb (ltb x y) && negb (ltb y x)) r || has_duplicates r
  end.
End Index.

Section Arrays.
Variable nL : nat.

Definition nan_row : row := repeat None nL.

(** Reduction of a stack of rows along the stacked axis, per lead. *)
Definition reduce_rows (min_count : nat) (rs : list row) : row :=
  map (fun j => mean_min_count min_count (map (fun r => nth j r None) rs)) (seq 0 nL).

Definition nanmean_rows (rs : list row) : row := reduce_rows 1 rs.

Section Labelled.
Context {K : Type}.
Variable eqb : K -> K -> bool.

Fixpoint lookup (k : K) (da : list (K * row)) : option row :=
  match da with
  | [] => None
  | (k', r) :: rest => if eqb k k' then Some r else lookup k rest
  end.

(** Row of [da] at label [k] after an outer join: NaN where absent. *)
Definition reindex (k : K) (da : list (K * row)) : row :=
  match lookup k da with
  | Some r => r
  | None => nan_row
  end.

Fixpoint sel_each (ks : list K) (da : list (K * row)) : result (list (K * row)) :=
  match ks with
  | [] => Ok []
  | k :: ks' =>
      match lookup k da with
      | None => Err KeyError
      | Some r => rest <- sel_each ks' da ;; Ok ((k, r) :: rest)
      end
  end.
End Labelled.

(** *** Python slices along the first axis *)

(** [da[-n:]] *)
Definition tail_slice {A : Type} (n : nat) (l : list A) : list A :=
  skipn (length l - n) l.

(** [da[:n]] *)
Definition head_slice {A : Type} (n : nat) (l : list A) : list A := firstn n l.

(** [da.isel(dayofyear=slice(a, -b))] *)
Definition isel_slice {A : Type} (a b : nat) (l : list A) : list A :=
  skipn a (firstn (length l - b) l).

(** *** [rolling(dayofyear=w, center=True, min_periods=m).mean()] *)

(** Rows [i-h .. i+h] that exist. *)
Definition centered_window {A : Type} (h i : nat) (xs : list A) : list A :=
  firstn (i + h + 1 - (i - h)) (skipn (i - h) xs).

Definition rolling_mean (w min_periods : nat) (da : list (Z * row)) : list (Z * row) :=
  combine (map fst da)
          (map (fun i => reduce_rows min_periods (centered_window (w / 2) i (map snd da)))
               (seq 0 (length da))).

(** *** [combine_first]: outer join, the left operand's values first *)

Definition fillna (x y : cell) : cell :=
  match x with
  | Some _ => x
  | None => y
  end.

Definition fillna_row (r1 r2 : row) : row :=
  map (fun p => fillna (fst p) (snd p)) (combine r1 r2).

Definition combine_first (a b : list (Z * row)) : list (Z * row) :=
  map (fun d => (d, fillna_row (reindex Z.eqb d a) (reindex Z.eqb d b)))
      (index_union Z.ltb (map fst a) (map fst b)).

(** *** [sel(dayofyear=labels)] on a day-of-year index *)

(** A list of labels is looked up in a unique index only; a label that is
    not in the index is a [KeyError]. *)
Definition sel_labels (labels : list Z) (da : list (Z * row)) : result (list (Z * row)) :=
  if has_duplicates Z.ltb (map fst da) then Err InvalidIndexError
  else sel_each Z.eqb labels da.

(** ** The script *)

Definition Series : Type := list (Date * row).
(** Array over (M, S, L), time-major: per start date the members' rows. *)
Definition Array3 : Type := list (Date * list row).

(** Lines 39-48: [xr.concat(_l, dim='M')]. *)
Definition concat_M (members : list Series) : result Array3 :=
  match members with
  | [] => Err ValueError
  | m0 :: rest =>
      let axis := fold_left (index_union date_ltb) (map (map fst) rest) (map fst m0) in
      Ok (map (fun t => (t, map (reindex date_eqb t) members)) axis)
  end.

(** Line 52: [da.sel(S=slice(starttime, endtime))]. *)
Definition sel_slice {A : Type} (lo hi : Date) (da : list (Date * A)) : list (Date * A) :=
  filter (fun s => date_leb lo (fst s) && date_leb (fst s) hi) da.

Section Subsample.
(** The day a date string of the template denotes for pandas. *)
Variable to_datetime : string -> Date.

(** Lines 50-55: the array and the (starttime, endtime) used for naming.
    With a single start date [S] is no axis any more: [sel] has no such
    dimension and [S.values] cannot be indexed. *)
Definition subsample {A : Type} (subsampletime : Z) (starttime endtime : string)
    (da : list (Date * A)) : result (list (Date * A) * (string * string)) :=
  if 1 =? subsampletime then
    if (length da =? 1)%nat then Err ValueError
    else Ok (sel_slice (to_datetime starttime) (to_datetime endtime) da,
             (starttime, endtime))
  else
    match da with
    | [] => Err IndexError
    | [_] => Err IndexError
    | s0 :: _ :: _ =>
        Ok (da, (strftime_Ymd (fst s0), strftime_Ymd (fst (last da s0))))
    end.

(** Lines 57-58. *)
Definition prefixed (starttime endtime fname : string) : string :=
  (starttime ++ "." ++ endtime ++ "." ++ fname)%string.

(** Lines 61-64: the mean over M, or the copy of the one member
    (whose member axis [squeeze] has removed). *)
Definition da_ensmean (nens : nat) (da : Array3) : Series :=
  if (1 <? nens)%nat then map (fun s => (fst s, nanmean_rows (snd s))) da
  else map (fun s => (fst s, hd nan_row (snd s))) da.

(** Lines 39-64. *)
Definition EnsembleAggregator (subsampletime : Z) (starttime endtime : string)
    (members : list Series) : result (Series * (string * string)) :=
  let nens := length members in
  ds <- concat_M members ;;
  sub <- subsample subsampletime starttime endtime ds ;;
  Ok (da_ensmean nens (fst sub), snd sub).
End Subsample.

(** Line 67: [da_ensmean.groupby('S.dayofyear').mean('S')]. *)
Definition groupby_dayofyear_mean (s : Series) : result (list (Z * row)) :=
  match s with
  | [] => Err ValueError
  | _ :: _ =>
      Ok (map (fun d => (d, nanmean_rows
                              (map snd (filter (fun x => dayofyear (fst x) =? d) s))))
              (sort_uniq Z.ltb (map (fun x => dayofyear (fst x)) s)))
  end.

(** Lines 75-78: the all-NaN array on days 1..366. *)
Definition dayofyear_axis : list Z := map Z.of_nat (seq 1 366).
Definition nan_template : list (Z * row) := map (fun d => (d, nan_row)) dayofyear_axis.

(** Line 79. *)
Definition da_day_clim_wnan (da_day_clim : list (Z * row)) : list (Z * row) :=
  combine_first da_day_clim nan_template.

(** Lines 86-95: one turn of the loop. *)
Definition extend_periodic (da : list (Z * row)) : list (Z * row) :=
  tail_slice 15 da ++ da ++ head_slice 15 da.

Definition smooth_pass (da : list (Z * row)) : list (Z * row) :=
  isel_slice 15 15 (rolling_mean 31 1 (extend_periodic da)).

(** Lines 83-95: [for i in range(2)]. *)
Definition smooth_twice (wnan : list (Z * row)) : list (Z * row) :=
  Nat.iter 2 smooth_pass wnan.

(** Lines 74-97 on the raw climatology.  With a single lead [L] is no axis
    any more and [len(da_day_clim.L)] raises. *)
Definition da_day_clim_smooth (da_day_clim : list (Z * row)) : result (list (Z * row)) :=
  if (nL =? 1)%nat then Err TypeError
  else sel_labels (map fst da_day_clim) (smooth_twice (da_day_clim_wnan da_day_clim)).

(** Lines 67-97: the raw and the smoothed climatology. *)
Definition ClimatologyEngine (ensmean : Series)
    : result (list (Z * row) * list (Z * row)) :=
  da_day_clim <- groupby_dayofyear_mean ensmean ;;
  smooth <- da_day_clim_smooth da_day_clim ;;
  Ok (da_day_clim, smooth).

End Arrays.

(** ** Vocabulary of the statements *)

Definition count_Q (n : nat) : Q := inject_Z (Z.of_nat n).









Definition has_value (g : list (Z * row)) : Prop :=
  exists e j v, In e g /\ nth j (snd e) None = Some v.




Definition labels_of (r : result (list (Z * row))) : option (list Z) :=
  match r with
  | inl _ => None
  | inr out => Some (map fst out)
  end.

(** ** Example data *)

(** A raw climatology with the same row on days 1..n. *)
Definition const_clim (nL n : nat) (v : Q) : list (Z * row) :=
  map (fun d => (Z.of_nat d, repeat (Some v) nL)) (seq 1 n).

(** A raw climatology on days 1..3 with the values 1, 4, 2 at both leads. *)
Definition clim_three_days : list (Z * row) :=
  [(1, [Some 1%Q; Some 1%Q]); (2, [Some 4%Q; Some 4%Q]); (3, [Some 2%Q; Some 2%Q])].


(** Two start dates of a common year. *)
Definition series_common_year : Series :=
  [(mkDate 2015 1 1, [Some 1%Q; Some 2%Q]); (mkDate 2015 1 2, [Some 3%Q; Some 4%Q])].

(** The last two days of a leap year. *)
Definition series_leap_december : Series :=
  [(mkDate 2016 12 30, [Some 1%Q; Some 2%Q]); (mkDate 2016 12 31, [Some 3%Q; Some 4%Q])].

(** Reading of a date string of the form YYYY-MM-DD. *)
Definition digit_value (c : ascii) : Z := Z.of_nat (nat_of_ascii c) - 48.

Definition parse_Ymd (s : string) : Date :=
  match map digit_value (list_ascii_of_string s) with
  | [y1; y2; y3; y4; _; m1; m2; _; d1; d2] =>
      mkDate (1000 * y1 + 100 * y2 + 10 * y3 + y4) (10 * m1 + m2) (10 * d1 + d2)
  | _ => mkDate 0 0 0
  end.

(** ** Vocabulary of the further properties *)

(** Lead [j] holds NaN only. *)
Definition col_nan (j : nat) (da : list (Z * row)) : Prop :=
  forall e, In e da -> nth j (snd e) None = None.


(** The cells of lead [j] of the samples that fall on day of year [d]. *)
Definition day_cells (d : Z) (j : nat) (s : Series) : list cell :=
  map (fun x => nth j (snd x) None) (filter (fun x => dayofyear (fst x) =? d) s).

(** The cell at position [k] (day [k + 1] of a padded array) and lead [j]. *)
Definition cell_of (da : list (Z * row)) (k j : nat) : cell :=
  nth j (snd (nth k da (0, []))) None.


(** Position [k + off - back] on a circle of [n] positions. *)
Definition around (n k off back : nat) : nat := ((k + off + n - back) mod n)%nat.



(** The order of the start dates. *)
Definition date_lt (a b : Date) : Prop := date_ltb a b = true.

(** A member whose start dates strictly increase. *)
Definition increasing_dates (m : Series) : Prop :=
  StronglySorted date_lt (map fst m).


(** A change of unit [v |-> a * v + b]; NaN stays NaN. *)
Definition affine_cell (a b : Q) (c : cell) : cell :=
  option_map (fun v => (a * v + b)%Q) c.

Definition convert_series (a b : Q) (s : Series) : Series :=
  map (fun x => (fst x, map (affine_cell a b) (snd x))) s.


(** Two arrays with the same labels and cell-wise related rows. *)
Definition rows_related (rel : cell -> cell -> Prop) (da da' : list (Z * row)) : Prop :=
  map fst da = map fst da'
  /\ Forall2 (Forall2 rel) (map snd da) (map snd da').

(** The outcomes of two runs: the same exception, or related climatologies. *)
Definition outcomes_related (rel : cell -> cell -> Prop)
    (r r' : result (list (Z * row) * list (Z * row))) : Prop :=
  match r, r' with
  | inl e, inl e' => e = e'
  | inr p, inr p' => rows_related rel (fst p) (fst p') /\ rows_related rel (snd p) (snd p')
  | _, _ => False
  end.

(** Two series with the same start dates and cell-wise related rows. *)
Definition series_related (rel : cell -> cell -> Prop) (s s' : Series) : Prop :=
  Forall2 (fun x x' => fst x = fst x' /\ Forall2 rel (snd x) (snd x')) s s'.

(** Two cells that are both NaN or both values. *)
Definition same_missing (c c' : cell) : Prop := c = None <-> c' = None.

(** Lines 31-32: the file names of the raw and of the smoothed climatology,
    from the printed latitude and longitude. *)
Definition climfname (ysave xsave : string) : string :=
  ("day_clim.y" ++ ysave ++ ".x" ++ xsave ++ ".nc")%string.

Definition sclimfname (ysave xsave : string) : string :=
  ("smooth_day_clim.y" ++ ysave ++ ".x" ++ xsave ++ ".nc")%string.

(** The strict order decided by [ltb]. *)
Definition lt_of {K : Type} (ltb : K -> K -> bool) (x y : K) : Prop := ltb x y = true.

(** A date that [strftime('%Y-%m-%d')] prints on ten characters. *)
Definition printable (d : Date) : Prop :=
  0 <= year d <= 9999 /\ 0 <= month d <= 99 /\ 0 <= day d <= 99.

(** * Properties *)

(** ** Evaluation on examples *)

Example dayofyear_dec31_leap : dayofyear (mkDate 2016 12 31) = 366.
Proof. reflexivity. Qed.

Example dayofyear_dec31_common : dayofyear (mkDate 2015 12 31) = 365.
Proof. reflexivity. Qed.

Example strftime_example : strftime_Ymd (mkDate 1999 1 7) = "1999-01-07"%string.
Proof. reflexivity. Qed.

Example nanmean_skips : nanmean [Some (1#1); None; Some (2#1)] = Some (3#2).
Proof. reflexivity. Qed.

Example nanmean_all_nan : nanmean [None; None] = None.
Proof. reflexivity. Qed.

(** ** Skip-NaN means *)

Local Open Scope Q_scope.




Lemma present_nil_iff (cs : list cell) :
  present cs = [] <-> (forall c, In c cs -> c = None).
Proof.
  induction cs as [|[w|] r IH]; simpl.
  - split; [intros _ c []|reflexivity].
  - split; [discriminate|]. intros H. specialize (H (Some w) (or_introl eq_refl)). discriminate.
  - rewrite IH. split.
    + intros H c [<-|Hc]; auto.
    + intros H c Hc. apply H. now right.
Qed.



Lemma mean_min_count_1_None (cs : list cell) :
  mean_min_count 1 cs = None <-> (forall c, In c cs -> c = None).
Proof.
  unfold mean_min_count. rewrite <- present_nil_iff.
  destruct (present cs) as [|v r]; simpl.
  - split; reflexivity.
  - split; discriminate.
Qed.

Lemma mean_min_count_1_Some (cs : list cell) (q : Q) :
  mean_min_count 1 cs = Some q ->
  present cs <> [] /\ q == Qsum (present cs) / count_Q (length (present cs)).
Proof.
  unfold mean_min_count.
  destruct (length (present cs) <? 1)%nat eqn:E; [discriminate|].
  intros H. split.
  - intros Hn. rewrite Hn in E. discriminate.
  - assert (Hq : q = Qred (Qsum (present cs) / count_Q (length (present cs))))
      by (unfold count_Q; congruence).
    rewrite Hq. apply Qred_correct.
Qed.

Lemma mean_min_count_1_is_Some (cs : list cell) (v : Q) :
  In (Some v) cs -> exists q, mean_min_count 1 cs = Some q.
Proof.
  intros Hin. destruct (mean_min_count 1 cs) as [q|] eqn:E; [now exists q|].
  rewrite mean_min_count_1_None in E. specialize (E _ Hin). discriminate.
Qed.


(** ** Slices, windows and labels *)

Lemma map_fst_combine {A B : Type} (a : list A) (b : list B) :
  length a = length b -> map fst (combine a b) = a.
Proof.
  revert b. induction a as [|x a IH]; intros [|y b] H; simpl in *; try discriminate; auto.
  f_equal. apply IH. lia.
Qed.

Lemma map_snd_combine {A B : Type} (a : list A) (b : list B) :
  length a = length b -> map snd (combine a b) = b.
Proof.
  revert b. induction a as [|x a IH]; intros [|y b] H; simpl in *; try discriminate; auto.
  f_equal. apply IH. lia.
Qed.

Lemma skipn_cons_nth {A : Type} (d : A) (a : nat) (xs : list A) :
  (a < length xs)%nat -> skipn a xs = nth a xs d :: skipn (S a) xs.
Proof.
  revert a. induction xs as [|x xs IH]; intros a H; simpl in H; [lia|].
  destruct a as [|a]; [reflexivity|].
  simpl. apply IH. lia.
Qed.

Lemma firstn_skipn_as_map {A : Type} (d : A) (c a : nat) (xs : list A) :
  (a + c <= length xs)%nat ->
  firstn c (skipn a xs) = map (fun t => nth (a + t) xs d) (seq 0 c).
Proof.
  revert a. induction c as [|c IH]; intros a H; [reflexivity|].
  rewrite (skipn_cons_nth d) by lia.
  cbn [firstn seq map]. rewrite Nat.add_0_r. f_equal.
  rewrite IH by lia. rewrite <- seq_shift, map_map.
  apply map_ext. intros t. f_equal. lia.
Qed.

Lemma in_skipn {A : Type} (n : nat) (l : list A) (x : A) : In x (skipn n l) -> In x l.
Proof. intros H. rewrite <- (firstn_skipn n l). apply in_or_app. now right. Qed.

Lemma in_firstn {A : Type} (n : nat) (l : list A) (x : A) : In x (firstn n l) -> In x l.
Proof. intros H. rewrite <- (firstn_skipn n l). apply in_or_app. now left. Qed.

Lemma in_centered_window {A : Type} (h i : nat) (xs : list A) (x : A) :
  In x (centered_window h i xs) -> In x xs.
Proof. unfold centered_window. intros H. eapply in_skipn, in_firstn, H. Qed.

Lemma centered_window_as_map {A : Type} (d : A) (h i : nat) (xs : list A) :
  (h <= i)%nat -> (i + h < length xs)%nat ->
  centered_window h i xs = map (fun t => nth (i - h + t) xs d) (seq 0 (2 * h + 1)).
Proof.
  intros Hh Hi. unfold centered_window.
  replace (i + h + 1 - (i - h))%nat with (2 * h + 1)%nat by lia.
  apply firstn_skipn_as_map. lia.
Qed.


Section ArrayFacts.
Variable nL : nat.

Lemma reduce_rows_length (m : nat) (rs : list row) : length (reduce_rows nL m rs) = nL.
Proof. unfold reduce_rows. now rewrite length_map, length_seq. Qed.

Lemma reduce_rows_nth (m : nat) (rs : list row) (j : nat) :
  (j < nL)%nat ->
  nth j (reduce_rows nL m rs) None
  = mean_min_count m (map (fun r => nth j r None) rs).
Proof.
  intros Hj. unfold reduce_rows.
  rewrite (nth_indep _ None (mean_min_count m (map (fun r => nth O r None) rs)))
    by (rewrite length_map, length_seq; exact Hj).
  rewrite (map_nth (fun j => mean_min_count m (map (fun r => nth j r None) rs))).
  now rewrite seq_nth.
Qed.

Lemma rolling_mean_labels (w m : nat) (da : list (Z * row)) :
  map fst (rolling_mean nL w m da) = map fst da.
Proof.
  unfold rolling_mean. apply map_fst_combine.
  now rewrite !length_map, length_seq.
Qed.

Lemma rolling_mean_rows (w m : nat) (da : list (Z * row)) :
  map snd (rolling_mean nL w m da)
  = map (fun i => reduce_rows nL m (centered_window (w / 2) i (map snd da)))
        (seq 0 (length da)).
Proof.
  unfold rolling_mean. apply map_snd_combine.
  now rewrite !length_map, length_seq.
Qed.

Lemma rolling_mean_length (w m : nat) (da : list (Z * row)) :
  length (rolling_mean nL w m da) = length da.
Proof. rewrite <- (length_map fst), rolling_mean_labels. apply length_map. Qed.

Lemma rolling_mean_nth (w m : nat) (da : list (Z * row)) (i : nat) (d : Z * row) :
  (i < length da)%nat ->
  nth i (rolling_mean nL w m da) d
  = (fst (nth i da d),
     reduce_rows nL m (centered_window (w / 2) i (map snd da))).
Proof.
  intros Hi.
  assert (Hl := rolling_mean_labels w m da).
  assert (Hr := rolling_mean_rows w m da).
  apply (f_equal (fun l => nth i l (fst d))) in Hl.
  apply (f_equal (fun l => nth i l (snd d))) in Hr.
  rewrite !map_nth in Hl. rewrite map_nth in Hr.
  destruct (nth i (rolling_mean nL w m da) d) as [k r]. simpl in *.
  subst k. f_equal. rewrite Hr.
  rewrite (nth_indep _ (snd d)
             (reduce_rows nL m (centered_window (w / 2) O (map snd da))))
    by (rewrite length_map, length_seq; exact Hi).
  rewrite (map_nth (fun i => reduce_rows nL m (centered_window (w / 2) i (map snd da)))).
  now rewrite seq_nth.
Qed.

Lemma rolling_mean_in (w m : nat) (da : list (Z * row)) (e : Z * row) :
  In e (rolling_mean nL w m da) ->
  exists i, (i < length da)%nat
            /\ e = (fst (nth i da e),
                    reduce_rows nL m (centered_window (w / 2) i (map snd da))).
Proof.
  intros H. apply (In_nth _ _ e) in H. destruct H as (i & Hi & He).
  rewrite rolling_mean_length in Hi. exists i. split; [exact Hi|].
  rewrite <- He at 1. now apply rolling_mean_nth.
Qed.

End ArrayFacts.

(** ** The periodic extension and one smoothing pass *)

Lemma isel_slice_app {A : Type} (a b : nat) (t x h : list A) :
  length t = a -> length h = b -> isel_slice a b (t ++ x ++ h) = x.
Proof.
  intros Ht Hh. unfold isel_slice.
  rewrite app_assoc, length_app, Hh, Nat.add_sub.
  rewrite firstn_app, Nat.sub_diag, firstn_O, app_nil_r, firstn_all.
  rewrite skipn_app, Ht, Nat.sub_diag. simpl.
  rewrite skipn_all2 by lia. reflexivity.
Qed.

Lemma isel_slice_map {A B : Type} (f : A -> B) (a b : nat) (l : list A) :
  map f (isel_slice a b l) = isel_slice a b (map f l).
Proof. unfold isel_slice. now rewrite length_map, firstn_map, skipn_map. Qed.

Lemma in_isel_slice {A : Type} (a b : nat) (l : list A) (x : A) :
  In x (isel_slice a b l) -> In x l.
Proof. unfold isel_slice. intros H. eapply in_firstn, in_skipn, H. Qed.

Lemma isel_slice_nth {A : Type} (d : A) (a b k : nat) (l : list A) :
  (k + a + b < length l)%nat -> nth k (isel_slice a b l) d = nth (a + k) l d.
Proof.
  intros H. unfold isel_slice. rewrite nth_skipn, nth_firstn.
  destruct (a + k <? length l - b)%nat eqn:E; [reflexivity|].
  apply Nat.ltb_ge in E. lia.
Qed.

Lemma tail_slice_length {A : Type} (n : nat) (l : list A) :
  (n <= length l)%nat -> length (tail_slice n l) = n.
Proof. intros H. unfold tail_slice. rewrite length_skipn. lia. Qed.

Lemma head_slice_length {A : Type} (n : nat) (l : list A) :
  (n <= length l)%nat -> length (head_slice n l) = n.
Proof. intros H. unfold head_slice. rewrite length_firstn. lia. Qed.

Lemma in_extend_periodic (da : list (Z * row)) (e : Z * row) :
  In e (extend_periodic da) -> In e da.
Proof.
  unfold extend_periodic, tail_slice, head_slice. rewrite !in_app_iff.
  intros [H|[H|H]]; [eapply in_skipn, H|exact H|eapply in_firstn, H].
Qed.

Lemma extend_periodic_length (da : list (Z * row)) :
  (15 <= length da)%nat -> length (extend_periodic da) = (length da + 30)%nat.
Proof.
  intros H. unfold extend_periodic.
  rewrite !length_app, tail_slice_length, head_slice_length by exact H. lia.
Qed.

Lemma extend_periodic_map {B : Type} (f : Z * row -> B) (da : list (Z * row)) :
  map f (extend_periodic da)
  = tail_slice 15 (map f da) ++ map f da ++ head_slice 15 (map f da).
Proof.
  unfold extend_periodic, tail_slice, head_slice.
  now rewrite !map_app, length_map, firstn_map, skipn_map.
Qed.

(** Entry [i] of the extension is entry [i - 15] of the circle. *)
Lemma extend_periodic_nth (da : list (Z * row)) (d : Z * row) (i : nat) :
  (15 <= length da)%nat -> (i < length da + 30)%nat ->
  nth i (extend_periodic da) d = nth ((i + length da - 15) mod length da) da d.
Proof.
  intros Hn Hi. unfold extend_periodic.
  set (n := length da) in *.
  destruct (Nat.lt_ge_cases i 15) as [H1|H1].
  - rewrite app_nth1 by (rewrite tail_slice_length; lia).
    unfold tail_slice. rewrite nth_skipn. fold n.
    rewrite Nat.mod_small by lia. f_equal. lia.
  - rewrite app_nth2 by (rewrite tail_slice_length; lia).
    rewrite tail_slice_length by lia.
    destruct (Nat.lt_ge_cases (i - 15) n) as [H2|H2].
    + rewrite app_nth1 by exact H2.
      replace (i + n - 15)%nat with ((i - 15) + 1 * n)%nat by lia.
      rewrite Nat.Div0.mod_add, Nat.mod_small by lia. reflexivity.
    + rewrite app_nth2 by exact H2. fold n.
      unfold head_slice. rewrite nth_firstn.
      replace (i - 15 - n <? 15)%nat with true by (symmetry; apply Nat.ltb_lt; lia).
      replace (i + n - 15)%nat with ((i - 15 - n) + 2 * n)%nat by lia.
      rewrite Nat.Div0.mod_add, Nat.mod_small by lia. reflexivity.
Qed.

Section SmoothFacts.
Variable nL : nat.

Lemma smooth_pass_labels (da : list (Z * row)) :
  (15 <= length da)%nat -> map fst (smooth_pass nL da) = map fst da.
Proof.
  intros H. unfold smooth_pass.
  rewrite isel_slice_map, rolling_mean_labels, extend_periodic_map.
  apply isel_slice_app.
  - apply tail_slice_length. now rewrite length_map.
  - apply head_slice_length. now rewrite length_map.
Qed.

Lemma smooth_pass_length (da : list (Z * row)) :
  (15 <= length da)%nat -> length (smooth_pass nL da) = length da.
Proof.
  intros H. rewrite <- (length_map fst), smooth_pass_labels by exact H.
  apply length_map.
Qed.

Lemma smooth_pass_in (da : list (Z * row)) (e : Z * row) :
  In e (smooth_pass nL da) ->
  exists i, (i < length (extend_periodic da))%nat
            /\ snd e = reduce_rows nL 1
                         (centered_window 15 i (map snd (extend_periodic da))).
Proof.
  intros H. apply in_isel_slice, rolling_mean_in in H.
  destruct H as (i & Hi & He). exists i. split; [exact Hi|].
  rewrite He. reflexivity.
Qed.

Lemma window_cell_source (da : list (Z * row)) (i j : nat) (c : cell) :
  In c (map (fun r => nth j r None)
            (centered_window 15 i (map snd (extend_periodic da)))) ->
  exists e, In e da /\ nth j (snd e) None = c.
Proof.
  intros H. apply in_map_iff in H. destruct H as (r & Hr & Hin).
  apply in_centered_window, in_map_iff in Hin. destruct Hin as (e & He & Hin).
  exists e. split; [now apply in_extend_periodic|]. now rewrite He.
Qed.



(** Row [k] of a pass: the mean over the 31 circular neighbours of day [k]. *)
Lemma smooth_pass_nth (da : list (Z * row)) (d : Z * row) (k : nat) :
  (15 <= length da)%nat -> (k < length da)%nat ->
  nth k (smooth_pass nL da) d
  = (fst (nth k da d),
     reduce_rows nL 1
       (map (fun t => snd (nth ((k + t + length da - 15) mod length da) da d))
            (seq 0 31))).
Proof.
  intros Hn Hk. unfold smooth_pass.
  assert (Hext := extend_periodic_length da Hn).
  rewrite isel_slice_nth by (rewrite rolling_mean_length; lia).
  rewrite rolling_mean_nth by lia.
  f_equal.
  - rewrite extend_periodic_nth by lia.
    replace (15 + k + length da - 15)%nat with (k + 1 * length da)%nat by lia.
    now rewrite Nat.Div0.mod_add, Nat.mod_small by lia.
  - f_equal. change (31 / 2)%nat with 15%nat.
    rewrite (centered_window_as_map (snd d)) by (rewrite ?length_map; lia).
    change (2 * 15 + 1)%nat with 31%nat.
    apply map_ext_in. intros t Ht. apply in_seq in Ht.
    change (snd d) with ((fun e : Z * row => snd e) d) at 1.
    rewrite (map_nth (fun e : Z * row => snd e)).
    rewrite extend_periodic_nth by lia.
    do 3 f_equal. lia.
Qed.

End SmoothFacts.

(** ** Integer indexes: sorted union and lookup *)

Local Open Scope Z_scope.

Lemma insert_uniq_in (x y : Z) (l : list Z) :
  In x (insert_uniq Z.ltb y l) <-> x = y \/ In x l.
Proof.
  induction l as [|z l IH]; simpl.
  - intuition.
  - destruct (Z.ltb_spec y z) as [H1|H1]; [simpl; intuition|].
    destruct (Z.ltb_spec z y) as [H2|H2]; simpl.
    + rewrite IH. intuition.
    + assert (y = z) by lia. subst. intuition.
Qed.

Lemma sort_uniq_in (x : Z) (l : list Z) : In x (sort_uniq Z.ltb l) <-> In x l.
Proof.
  induction l as [|y l IH]; simpl; [tauto|].
  rewrite insert_uniq_in, IH. intuition.
Qed.

Lemma insert_uniq_sorted (y : Z) (l : list Z) :
  StronglySorted Z.lt l -> StronglySorted Z.lt (insert_uniq Z.ltb y l).
Proof.
  induction 1 as [|z l Hs IH Hall]; simpl.
  - constructor; constructor.
  - destruct (Z.ltb_spec y z) as [H1|H1].
    + constructor; [now constructor|].
      constructor; [exact H1|].
      eapply Forall_impl; [|exact Hall]. intros a Ha. lia.
    + destruct (Z.ltb_spec z y) as [H2|H2]; [|now constructor].
      constructor; [exact IH|].
      apply Forall_forall. intros a Ha. apply insert_uniq_in in Ha.
      destruct Ha as [->|Ha]; [exact H2|].
      rewrite Forall_forall in Hall. now apply Hall.
Qed.

Lemma sort_uniq_sorted (l : list Z) : StronglySorted Z.lt (sort_uniq Z.ltb l).
Proof.
  induction l as [|y l IH]; simpl; [constructor|].
  now apply insert_uniq_sorted.
Qed.

Lemma sorted_lt_unique (l l' : list Z) :
  StronglySorted Z.lt l -> StronglySorted Z.lt l' ->
  (forall x, In x l <-> In x l') -> l = l'.
Proof.
  intros Hl. revert l'. induction Hl as [|x l Hs IH Hall]; intros l' Hl' Heq.
  - destruct l' as [|y l']; [reflexivity|].
    destruct (proj2 (Heq y) (or_introl eq_refl)).
  - destruct Hl' as [|y l' Hs' Hall'].
    + destruct (proj1 (Heq x) (or_introl eq_refl)).
    + rewrite Forall_forall in Hall, Hall'.
      assert (Hxy : x = y).
      { destruct (proj1 (Heq x) (or_introl eq_refl)) as [E|E]; [now symmetry|].
        destruct (proj2 (Heq y) (or_introl eq_refl)) as [E'|E']; [exact E'|].
        specialize (Hall _ E'). specialize (Hall' _ E). lia. }
      subst y. f_equal. apply IH; [exact Hs'|].
      intros z. split; intros Hz.
      * destruct (proj1 (Heq z) (or_intror Hz)) as [E|E]; [|exact E].
        specialize (Hall _ Hz). lia.
      * destruct (proj2 (Heq z) (or_intror Hz)) as [E|E]; [|exact E].
        specialize (Hall' _ Hz). lia.
Qed.

Lemma index_equal_eq (a b : list Z) : index_equal Z.ltb a b = true -> a = b.
Proof.
  revert b. induction a as [|x a IH]; intros [|y b] H; simpl in H; try discriminate; auto.
  apply andb_prop in H. destruct H as [H Hab]. apply andb_prop in H. destruct H as [H1 H2].
  apply negb_true_iff, Z.ltb_ge in H1. apply negb_true_iff, Z.ltb_ge in H2.
  f_equal; [lia|now apply IH].
Qed.

Lemma index_union_in (a b : list Z) (x : Z) :
  In x (index_union Z.ltb a b) <-> In x a \/ In x b.
Proof.
  unfold index_union. destruct a as [|z a], b as [|y b]; try (simpl; tauto).
  destruct (index_equal Z.ltb (z :: a) (y :: b)) eqn:E.
  - apply index_equal_eq in E. rewrite <- E. tauto.
  - rewrite sort_uniq_in, in_app_iff. tauto.
Qed.

Lemma seq_Z_sorted (a n : nat) : StronglySorted Z.lt (map Z.of_nat (seq a n)).
Proof.
  revert a. induction n as [|n IH]; intros a; simpl; constructor; [apply IH|].
  apply Forall_forall. intros x Hx. apply in_map_iff in Hx.
  destruct Hx as (k & <- & Hk). apply in_seq in Hk. lia.
Qed.

Lemma dayofyear_axis_in (d : Z) : In d dayofyear_axis <-> 1 <= d <= 366.
Proof.
  unfold dayofyear_axis. rewrite in_map_iff. split.
  - intros (k & <- & Hk). apply in_seq in Hk. lia.
  - intros H. exists (Z.to_nat d). split; [lia|]. apply in_seq. lia.
Qed.

Lemma index_union_axis (a : list Z) :
  (forall d, In d a -> 1 <= d <= 366) ->
  index_union Z.ltb a dayofyear_axis = dayofyear_axis.
Proof.
  intros Ha. unfold index_union.
  destruct dayofyear_axis as [|y b] eqn:Eb; [discriminate|].
  destruct a as [|z a]; [reflexivity|].
  destruct (index_equal Z.ltb (z :: a) (y :: b)) eqn:E; [now apply index_equal_eq|].
  apply sorted_lt_unique.
  - apply sort_uniq_sorted.
  - rewrite <- Eb. apply seq_Z_sorted.
  - intros x. rewrite sort_uniq_in, in_app_iff. split; [|intros H; now right].
    intros [H|H]; [|exact H]. rewrite <- Eb. apply dayofyear_axis_in. now apply Ha.
Qed.

Section LookupFacts.
Variable nL : nat.

Lemma lookup_in (d : Z) (da : list (Z * row)) (r : row) :
  lookup Z.eqb d da = Some r -> In (d, r) da.
Proof.
  induction da as [|[k r'] da IH]; simpl; [discriminate|].
  destruct (Z.eqb_spec d k) as [->|Hne].
  - intros H. injection H as ->. now left.
  - intros H. right. now apply IH.
Qed.

Lemma lookup_none_iff (d : Z) (da : list (Z * row)) :
  lookup Z.eqb d da = None <-> ~ In d (map fst da).
Proof.
  induction da as [|[k r'] da IH]; simpl; [tauto|].
  destruct (Z.eqb_spec d k) as [->|Hne].
  - split; [discriminate|]. intros H. exfalso. apply H. now left.
  - rewrite IH. split; [|tauto]. intros H [E|E]; [congruence|tauto].
Qed.

Lemma lookup_some_of_label (d : Z) (da : list (Z * row)) :
  In d (map fst da) -> exists r, lookup Z.eqb d da = Some r.
Proof.
  intros H. destruct (lookup Z.eqb d da) as [r|] eqn:E; [now exists r|].
  apply lookup_none_iff in E. contradiction.
Qed.

Lemma lookup_map_index (f : Z -> row) (idx : list Z) (d : Z) :
  lookup Z.eqb d (map (fun k => (k, f k)) idx)
  = if in_dec Z.eq_dec d idx then Some (f d) else None.
Proof.
  induction idx as [|k idx IH]; simpl; [reflexivity|].
  destruct (Z.eqb_spec d k) as [->|Hne].
  - destruct (Z.eq_dec k k); [reflexivity|congruence].
  - rewrite IH. destruct (Z.eq_dec k d); [congruence|].
    destruct (in_dec Z.eq_dec d idx); reflexivity.
Qed.

Lemma fillna_row_nan (r : row) : length r = nL -> fillna_row r (nan_row nL) = r.
Proof.
  unfold fillna_row, nan_row. revert r.
  induction nL as [|n IH]; intros [|c r] H; simpl in *; try discriminate; auto.
  f_equal; [now destruct c|]. apply IH. lia.
Qed.

Lemma reindex_nan_template (d : Z) : reindex nL Z.eqb d (nan_template nL) = nan_row nL.
Proof.
  unfold reindex, nan_template. rewrite (lookup_map_index (fun _ => nan_row nL)).
  now destruct (in_dec Z.eq_dec d dayofyear_axis).
Qed.

Lemma map_fst_index (f : Z -> row) (idx : list Z) :
  map fst (map (fun k => (k, f k)) idx) = idx.
Proof. induction idx as [|k idx IH]; [reflexivity|]. cbn [map fst]. now rewrite IH. Qed.

Lemma nan_template_labels : map fst (nan_template nL) = dayofyear_axis.
Proof. unfold nan_template. apply (map_fst_index (fun _ => nan_row nL)). Qed.

(** The padded array is indexed by 1..366. *)
Lemma da_day_clim_wnan_labels (g : list (Z * row)) :
  (forall d, In d (map fst g) -> 1 <= d <= 366) ->
  map fst (da_day_clim_wnan nL g) = dayofyear_axis.
Proof.
  intros H. unfold da_day_clim_wnan, combine_first.
  rewrite (map_fst_index
             (fun d => fillna_row (reindex nL Z.eqb d g)
                                  (reindex nL Z.eqb d (nan_template nL)))).
  rewrite nan_template_labels. now apply index_union_axis.
Qed.

Lemma da_day_clim_wnan_lookup (g : list (Z * row)) (d : Z) :
  lookup Z.eqb d (da_day_clim_wnan nL g)
  = if in_dec Z.eq_dec d (index_union Z.ltb (map fst g) dayofyear_axis)
    then Some (fillna_row (reindex nL Z.eqb d g) (nan_row nL))
    else None.
Proof.
  unfold da_day_clim_wnan, combine_first.
  rewrite (lookup_map_index
             (fun d => fillna_row (reindex nL Z.eqb d g)
                                  (reindex nL Z.eqb d (nan_template nL)))).
  now rewrite nan_template_labels, reindex_nan_template.
Qed.

Lemma nan_row_length : length (nan_row nL) = nL.
Proof. apply repeat_length. Qed.

Lemma nan_row_nth (j : nat) : nth j (nan_row nL) None = None.
Proof. unfold nan_row. apply nth_repeat. Qed.

Lemma wnan_lookup_present (g : list (Z * row)) (d : Z) (r : row) :
  lookup Z.eqb d g = Some r -> length r = nL ->
  lookup Z.eqb d (da_day_clim_wnan nL g) = Some r.
Proof.
  intros Hl Hlen. rewrite da_day_clim_wnan_lookup.
  destruct (in_dec Z.eq_dec d (index_union Z.ltb (map fst g) dayofyear_axis)) as [Hin|Hout].
  - unfold reindex. rewrite Hl. now rewrite fillna_row_nan.
  - exfalso. apply Hout, index_union_in. left.
    apply lookup_in in Hl. apply in_map_iff. now exists (d, r).
Qed.

Lemma wnan_lookup_absent (g : list (Z * row)) (d : Z) :
  lookup Z.eqb d g = None ->
  lookup Z.eqb d (da_day_clim_wnan nL g)
  = if in_dec Z.eq_dec d dayofyear_axis then Some (nan_row nL) else None.
Proof.
  intros Hl. rewrite da_day_clim_wnan_lookup.
  apply lookup_none_iff in Hl as Hnot.
  unfold reindex. rewrite Hl, fillna_row_nan by apply nan_row_length.
  destruct (in_dec Z.eq_dec d (index_union Z.ltb (map fst g) dayofyear_axis)) as [Hin|Hout];
    destruct (in_dec Z.eq_dec d dayofyear_axis) as [Ha|Ha]; try reflexivity.
  - apply index_union_in in Hin. tauto.
  - exfalso. apply Hout, index_union_in. now right.
Qed.

Lemma sel_each_spec (ks : list Z) (da out : list (Z * row)) :
  sel_each Z.eqb ks da = Ok out ->
  map fst out = ks /\ forall e, In e out -> lookup Z.eqb (fst e) da = Some (snd e).
Proof.
  revert out. induction ks as [|k ks IH]; intros out; simpl.
  - intros H. injection H as <-. split; [reflexivity|intros e []].
  - destruct (lookup Z.eqb k da) as [r|] eqn:Ek; [|discriminate].
    destruct (sel_each Z.eqb ks da) as [err|rest]; simpl; [discriminate|].
    intros H. injection H as <-.
    destruct (IH rest eq_refl) as [IH1 IH2]. split.
    + simpl. now rewrite IH1.
    + intros e [<-|He]; [exact Ek|now apply IH2].
Qed.

Lemma sel_each_total (ks : list Z) (da : list (Z * row)) :
  (forall k, In k ks -> In k (map fst da)) ->
  exists out, sel_each Z.eqb ks da = Ok out.
Proof.
  induction ks as [|k ks IH]; intros H; simpl; [now exists []|].
  destruct (lookup_some_of_label k da) as [r ->]; [apply H; now left|].
  destruct IH as [rest ->]; [intros k' Hk'; apply H; now right|].
  simpl. now eexists.
Qed.

End LookupFacts.

(** ** The smoothed climatology: index *)

Lemma dayofyear_axis_length : length dayofyear_axis = 366%nat.
Proof. unfold dayofyear_axis. now rewrite length_map, length_seq. Qed.

Lemma dayofyear_axis_unique : has_duplicates Z.ltb dayofyear_axis = false.
Proof. vm_compute. reflexivity. Qed.

Section ClimatologyIndex.
Variable nL : nat.

Lemma labels_length_366 (da : list (Z * row)) :
  map fst da = dayofyear_axis -> length da = 366%nat.
Proof. intros H. rewrite <- (length_map fst), H. apply dayofyear_axis_length. Qed.

Lemma smooth_pass_axis (da : list (Z * row)) :
  map fst da = dayofyear_axis -> map fst (smooth_pass nL da) = dayofyear_axis.
Proof.
  intros H. rewrite smooth_pass_labels; [exact H|].
  rewrite (labels_length_366 da H). lia.
Qed.

Lemma smooth_twice_axis (g : list (Z * row)) :
  (forall d, In d (map fst g) -> 1 <= d <= 366) ->
  map fst (smooth_twice nL (da_day_clim_wnan nL g)) = dayofyear_axis.
Proof.
  intros H. unfold smooth_twice. simpl.
  now apply smooth_pass_axis, smooth_pass_axis, da_day_clim_wnan_labels.
Qed.

(** The final selection succeeds and returns the rows of the twice-smoothed
    array at the labels of the raw climatology. *)
Lemma da_day_clim_smooth_ok (g : list (Z * row)) :
  nL <> 1%nat ->
  (forall d, In d (map fst g) -> 1 <= d <= 366) ->
  exists out,
    da_day_clim_smooth nL g = Ok out
    /\ map fst out = map fst g
    /\ forall e, In e out -> In e (smooth_twice nL (da_day_clim_wnan nL g)).
Proof.
  intros HnL H. unfold da_day_clim_smooth, sel_labels.
  destruct (Nat.eqb_spec nL 1) as [E|_]; [contradiction|].
  rewrite (smooth_twice_axis g H), dayofyear_axis_unique.
  destruct (sel_each_total (map fst g) (smooth_twice nL (da_day_clim_wnan nL g)))
    as [out Hout].
  { intros k Hk. rewrite (smooth_twice_axis g H). apply dayofyear_axis_in. now apply H. }
  exists out. split; [exact Hout|].
  apply sel_each_spec in Hout. destruct Hout as [Hl Hr]. split; [exact Hl|].
  intros [d r] He. apply lookup_in. apply (Hr (d, r) He).
Qed.

End ClimatologyIndex.

(** C1, as stated, fails: a raw climatology built from years without a
    31 December of a leap year has days 1..365 only, and the smoothed
    climatology is selected back onto these 365 labels. *)
Lemma C1_counterexample :
  has_value (const_clim 2 365 (5 # 2))
  /\ ~ (exists out, da_day_clim_smooth 2 (const_clim 2 365 (5 # 2)) = Ok out
                    /\ map fst out = dayofyear_axis).
Proof.
  split.
  - exists (1, [Some (5 # 2); Some (5 # 2)])%Z, 0%nat, (5 # 2).
    split; [now left|reflexivity].
  - intros (out & Hout & Hl).
    assert (E : labels_of (da_day_clim_smooth 2 (const_clim 2 365 (5 # 2)))
                = Some (map Z.of_nat (seq 1 365))) by (vm_compute; reflexivity).
    rewrite Hout in E. unfold Ok, labels_of in E. rewrite Hl in E.
    apply (f_equal (option_map (@length Z))) in E.
    vm_compute in E. discriminate.
Qed.

(** C1 (amended): for every raw climatology with labels within 1..366 and
    more than one lead, the twice-smoothed array has exactly the 366
    entries 1..366, whatever is missing, and the final selection returns it
    on the labels of the raw climatology: the smoothed climatology has as
    many entries as the raw one, 366 exactly when every day of year has a
    sample. *)
Theorem C1_smoothed_index (nL : nat) (g : list (Z * row)) :
  nL <> 1%nat ->
  (forall d, In d (map fst g) -> 1 <= d <= 366) ->
  map fst (smooth_twice nL (da_day_clim_wnan nL g)) = dayofyear_axis
  /\ length (smooth_twice nL (da_day_clim_wnan nL g)) = 366%nat
  /\ exists out,
       da_day_clim_smooth nL g = Ok out
       /\ map fst out = map fst g
       /\ (length out = 366%nat <-> length g = 366%nat).
Proof.
  intros HnL H.
  assert (Hax := smooth_twice_axis nL g H).
  split; [exact Hax|]. split; [now apply labels_length_366|].
  destruct (da_day_clim_smooth_ok nL g HnL H) as (out & Hout & Hl & _).
  exists out. split; [exact Hout|]. split; [exact Hl|].
  apply (f_equal (@length Z)) in Hl. rewrite !length_map in Hl. now rewrite Hl.
Qed.

Lemma C1_smoothed_index_witness :
  map fst (smooth_twice 2 (da_day_clim_wnan 2 (const_clim 2 3 (5 # 2)))) = dayofyear_axis
  /\ length (smooth_twice 2 (da_day_clim_wnan 2 (const_clim 2 3 (5 # 2)))) = 366%nat
  /\ exists out,
       da_day_clim_smooth 2 (const_clim 2 3 (5 # 2)) = Ok out
       /\ map fst out = map fst (const_clim 2 3 (5 # 2))
       /\ (length out = 366%nat <-> length (const_clim 2 3 (5 # 2)) = 366%nat).
Proof.
  apply (C1_smoothed_index 2 (const_clim 2 3 (5 # 2))).
  - discriminate.
  - simpl. intros d [<-|[<-|[<-|[]]]]; lia.
Defined.

(** ** Padding: frame *)

(** C9: padding keeps every row of the raw climatology as it is, gives the
    NaN row to the days of 1..366 the raw climatology lacks, and adds no
    other label. *)
Theorem C9_padding_frame (nL : nat) (g : list (Z * row)) :
  (forall e, In e g -> length (snd e) = nL) ->
  (forall d r, lookup Z.eqb d g = Some r ->
               lookup Z.eqb d (da_day_clim_wnan nL g) = Some r)
  /\ (forall d, lookup Z.eqb d g = None -> 1 <= d <= 366 ->
                lookup Z.eqb d (da_day_clim_wnan nL g) = Some (nan_row nL))
  /\ (forall d, lookup Z.eqb d g = None -> ~ 1 <= d <= 366 ->
                lookup Z.eqb d (da_day_clim_wnan nL g) = None).
Proof.
  intros Hshape. split; [|split].
  - intros d r Hl. apply wnan_lookup_present; [exact Hl|].
    apply (Hshape (d, r)). now apply lookup_in.
  - intros d Hl Hd. rewrite wnan_lookup_absent by exact Hl.
    destruct (in_dec Z.eq_dec d dayofyear_axis) as [_|Hn]; [reflexivity|].
    exfalso. now apply Hn, dayofyear_axis_in.
  - intros d Hl Hd. rewrite wnan_lookup_absent by exact Hl.
    destruct (in_dec Z.eq_dec d dayofyear_axis) as [Hin|_]; [|reflexivity].
    exfalso. now apply Hd, dayofyear_axis_in.
Qed.

Lemma C9_padding_frame_witness :
  (forall d r, lookup Z.eqb d (const_clim 2 3 (5 # 2)) = Some r ->
               lookup Z.eqb d (da_day_clim_wnan 2 (const_clim 2 3 (5 # 2))) = Some r)
  /\ (forall d, lookup Z.eqb d (const_clim 2 3 (5 # 2)) = None -> 1 <= d <= 366 ->
                lookup Z.eqb d (da_day_clim_wnan 2 (const_clim 2 3 (5 # 2)))
                = Some (nan_row 2))
  /\ (forall d, lookup Z.eqb d (const_clim 2 3 (5 # 2)) = None -> ~ 1 <= d <= 366 ->
                lookup Z.eqb d (da_day_clim_wnan 2 (const_clim 2 3 (5 # 2))) = None).
Proof.
  apply (C9_padding_frame 2 (const_clim 2 3 (5 # 2))).
  simpl. intros e [<-|[<-|[<-|[]]]]; reflexivity.
Defined.

(** ** Smoothing: range of the values *)

Local Open Scope Q_scope.





Lemma da_day_clim_smooth_sub (nL : nat) (g out : list (Z * row)) :
  da_day_clim_smooth nL g = Ok out ->
  forall e, In e out -> In e (smooth_twice nL (da_day_clim_wnan nL g)).
Proof.
  unfold da_day_clim_smooth, sel_labels.
  destruct (nL =? 1)%nat; [discriminate|].
  destruct (has_duplicates Z.ltb (map fst (smooth_twice nL (da_day_clim_wnan nL g))));
    [discriminate|].
  intros H [d r] He. apply sel_each_spec in H. destruct H as [_ H].
  apply lookup_in. apply (H (d, r) He).
Qed.



(** ** Smoothing: constants *)



Section Constants.
Variable nL : nat.

Lemma wnan_in (g : list (Z * row)) (e : Z * row) :
  In e (da_day_clim_wnan nL g) ->
  snd e = fillna_row (reindex nL Z.eqb (fst e) g) (nan_row nL).
Proof.
  unfold da_day_clim_wnan, combine_first. intros H.
  apply in_map_iff in H. destruct H as (d & <- & _).
  cbn [fst snd]. now rewrite reindex_nan_template.
Qed.



End Constants.



(** ** Smoothing: the missing day 366 *)

Local Open Scope Z_scope.


Section MissingDay.
Variable nL : nat.






End MissingDay.





(** ** Smoothing: the shape of a pass *)

Lemma seq_from (a c : nat) : seq a c = map (Nat.add a) (seq 0 c).
Proof.
  induction a as [|a IH]; [now rewrite map_id|].
  rewrite <- seq_shift, IH, map_map. reflexivity.
Qed.

Lemma centered_window_positions {A : Type} (d : A) (h i : nat) (xs : list A) :
  (i < length xs)%nat ->
  centered_window h i xs
  = map (fun k => nth k xs d)
        (seq (i - h) (Nat.min (i + h) (length xs - 1) + 1 - (i - h))).
Proof.
  intros Hi. unfold centered_window.
  set (a := (i - h)%nat).
  set (c := (Nat.min (i + h) (length xs - 1) + 1 - a)%nat).
  assert (Hc : firstn (i + h + 1 - a) (skipn a xs) = firstn c (skipn a xs)).
  { subst c. destruct (Nat.le_ge_cases (i + h) (length xs - 1)) as [H|H].
    - now rewrite Nat.min_l.
    - rewrite Nat.min_r by exact H.
      rewrite !firstn_all2; try reflexivity; rewrite length_skipn; subst a; lia. }
  rewrite Hc, (firstn_skipn_as_map d) by (subst c a; lia).
  now rewrite (seq_from a c), map_map.
Qed.

Lemma rolled_cell (nL : nat) (ext : list (Z * row)) (i j : nat) :
  (i < length ext)%nat -> (j < nL)%nat ->
  nth j (snd (nth i (rolling_mean nL 31 1 ext) (0, []))) None
  = mean_min_count 1
      (map (fun k => nth j (snd (nth k ext (0, []))) None)
           (seq (i - 15) (Nat.min (i + 15) (length ext - 1) + 1 - (i - 15)))).
Proof.
  intros Hi Hj. rewrite rolling_mean_nth by exact Hi. cbn [snd].
  rewrite reduce_rows_nth by exact Hj. apply f_equal.
  change (31 / 2)%nat with 15%nat.
  rewrite (centered_window_positions (A := row) []) by (now rewrite length_map).
  rewrite map_map, length_map. apply map_ext. intros k.
  change (@nil cell) with (snd ((0, []) : Z * row)) at 1.
  now rewrite map_nth.
Qed.

(** C2: on a 366-entry array, one turn of the loop (i) puts the last 15
    entries before and the first 15 entries after the array, 396 entries in
    all; (ii) replaces each value by the mean of the non-NaN values at the
    up to 31 positions centred on it, which is NaN exactly when all of them
    are NaN; (iii) drops 15 entries at each end, leaving 366 entries under
    the labels of the input; and (iv) the loop runs this turn twice, the
    second on the result of the first. *)
Theorem C2_smoothing_pass (nL : nat) (da : list (Z * row)) :
  length da = 366%nat ->
  let ext := extend_periodic da in
  let rolled := rolling_mean nL 31 1 ext in
  (ext = skipn 351 da ++ da ++ firstn 15 da /\ length ext = 396%nat)
  /\ (map fst rolled = map fst ext
      /\ forall i j, (i < 396)%nat -> (j < nL)%nat ->
           let cells := map (fun k => nth j (snd (nth k ext (0, []))) None)
                            (seq (i - 15) (Nat.min (i + 15) 395 + 1 - (i - 15))) in
           let c := nth j (snd (nth i rolled (0, []))) None in
           (c = None <-> forall x, In x cells -> x = None)
           /\ ((exists v, In (Some v) cells) -> exists q, c = Some q)
           /\ (forall q, c = Some q ->
                 (q == Qsum (present cells) / count_Q (length (present cells)))%Q))
  /\ (smooth_pass nL da = skipn 15 (firstn 381 rolled)
      /\ length (smooth_pass nL da) = 366%nat
      /\ map fst (smooth_pass nL da) = map fst da)
  /\ smooth_twice nL da = smooth_pass nL (smooth_pass nL da).
Proof.
  intros Hlen ext rolled.
  assert (Hext : length ext = 396%nat).
  { unfold ext. rewrite extend_periodic_length; lia. }
  split; [|split; [|split]].
  - split; [|exact Hext].
    unfold ext, extend_periodic, tail_slice, head_slice. now rewrite Hlen.
  - split; [apply rolling_mean_labels|].
    intros i j Hi Hj cells c.
    assert (Hc : c = mean_min_count 1 cells).
    { unfold c, cells, rolled. rewrite rolled_cell by (try rewrite Hext; assumption).
      now rewrite Hext. }
    rewrite Hc. split; [apply mean_min_count_1_None|]. split.
    + intros [v Hv]. now apply (mean_min_count_1_is_Some _ v).
    + intros q Hq. now apply mean_min_count_1_Some in Hq.
  - split; [|split].
    + unfold smooth_pass, isel_slice. fold ext. fold rolled.
      unfold rolled at 1. now rewrite rolling_mean_length, Hext.
    + rewrite smooth_pass_length; lia.
    + apply smooth_pass_labels. lia.
  - reflexivity.
Qed.

Lemma C2_smoothing_pass_witness :
  length (const_clim 2 366 (5 # 2)) = 366%nat
  /\ length (extend_periodic (const_clim 2 366 (5 # 2))) = 396%nat
  /\ length (smooth_pass 2 (const_clim 2 366 (5 # 2))) = 366%nat
  /\ map fst (smooth_pass 2 (const_clim 2 366 (5 # 2)))
     = map fst (const_clim 2 366 (5 # 2))
  /\ smooth_twice 2 (const_clim 2 366 (5 # 2))
     = smooth_pass 2 (smooth_pass 2 (const_clim 2 366 (5 # 2))).
Proof.
  split; [reflexivity|].
  destruct (C2_smoothing_pass 2 (const_clim 2 366 (5 # 2)) eq_refl)
    as ((_ & Hext) & _ & (_ & Hlen & Hlab) & Htwice).
  repeat split; assumption.
Defined.

(** ** Day of year and grouping *)

Lemma month_cases (m : Z) :
  1 <= m <= 12 ->
  m = 1 \/ m = 2 \/ m = 3 \/ m = 4 \/ m = 5 \/ m = 6 \/
  m = 7 \/ m = 8 \/ m = 9 \/ m = 10 \/ m = 11 \/ m = 12.
Proof. lia. Qed.

(** Evaluates the closed sums of month lengths. *)
Ltac eval_days_before :=
  repeat match goal with
         | |- context [fold_right Z.add 0 ?l] =>
             let v := eval vm_compute in (fold_right Z.add 0 l) in
             change (fold_right Z.add 0 l) with v
         | H : context [fold_right Z.add 0 ?l] |- _ =>
             let v := eval vm_compute in (fold_right Z.add 0 l) in
             change (fold_right Z.add 0 l) with v in H
         end.

Lemma dayofyear_range (d : Date) :
  valid_date d = true ->
  1 <= dayofyear d <= (if is_leap_year (year d) then 366 else 365).
Proof.
  destruct d as [y m dd]. unfold valid_date, dayofyear. cbn [year month day].
  rewrite !andb_true_iff, !Z.leb_le. intros [[[Hm1 Hm2] Hd1] Hd2].
  assert (Hc := month_cases m (conj Hm1 Hm2)).
  repeat (destruct Hc as [Hc|Hc]); subst m;
    unfold days_before_month, days_in_month in *;
    destruct (is_leap_year y); cbn in Hd2; eval_days_before; lia.
Qed.

Lemma dayofyear_range_366 (d : Date) :
  valid_date d = true -> 1 <= dayofyear d <= 366.
Proof.
  intros H. apply dayofyear_range in H. destruct (is_leap_year (year d)); lia.
Qed.

(** Day 366 occurs in leap years only, and there on 31 December. *)
Lemma dayofyear_366 (d : Date) :
  valid_date d = true -> dayofyear d = 366 ->
  is_leap_year (year d) = true /\ month d = 12 /\ day d = 31.
Proof.
  intros Hv H. assert (Hr := dayofyear_range d Hv).
  destruct d as [y m dd]. unfold valid_date, dayofyear in *. cbn [year month day] in *.
  rewrite !andb_true_iff, !Z.leb_le in Hv. destruct Hv as [[[Hm1 Hm2] Hd1] Hd2].
  assert (Hc := month_cases m (conj Hm1 Hm2)).
  repeat (destruct Hc as [Hc|Hc]); subst m;
    unfold days_before_month, days_in_month in *;
    destruct (is_leap_year y); cbn in Hd2; eval_days_before; cbn in Hr;
    try lia; repeat split; lia.
Qed.

Section Grouping.
Variable nL : nat.

Lemma groupby_labels (s : Series) (g : list (Z * row)) :
  groupby_dayofyear_mean nL s = Ok g ->
  map fst g = sort_uniq Z.ltb (map (fun x => dayofyear (fst x)) s).
Proof.
  unfold groupby_dayofyear_mean. destruct s as [|x s]; [discriminate|].
  intros H. injection H as <-.
  apply (map_fst_index
           (fun d => nanmean_rows nL
                       (map snd (filter (fun x => dayofyear (fst x) =? d) (x :: s))))).
Qed.

Lemma groupby_label_in (s : Series) (g : list (Z * row)) (d : Z) :
  groupby_dayofyear_mean nL s = Ok g ->
  In d (map fst g) <-> exists x, In x s /\ dayofyear (fst x) = d.
Proof.
  intros H. rewrite (groupby_labels s g H), sort_uniq_in, in_map_iff.
  split; intros (x & H1 & H2); exists x; auto.
Qed.

Lemma groupby_ok (s : Series) :
  s <> [] -> exists g, groupby_dayofyear_mean nL s = Ok g.
Proof.
  destruct s as [|x s]; [congruence|]. intros _. simpl. now eexists.
Qed.

End Grouping.




(** ** Dates: order and equality *)


Lemma date_ltb_spec (a b : Date) :
  date_ltb a b = true <->
  year a < year b
  \/ (year a = year b
      /\ (month a < month b \/ (month a = month b /\ day a < day b))).
Proof.
  unfold date_ltb.
  rewrite !orb_true_iff, !andb_true_iff, !orb_true_iff, !andb_true_iff,
    !Z.ltb_lt, !Z.eqb_eq.
  reflexivity.
Qed.

Lemma date_ltb_irrefl (a : Date) : date_ltb a a = false.
Proof.
  destruct (date_ltb a a) eqn:E; [|reflexivity].
  apply date_ltb_spec in E. lia.
Qed.




Example parse_Ymd_example : parse_Ymd "2015-02-01" = mkDate 2015 2 1.
Proof. reflexivity. Qed.

(** ** The ensemble aggregator *)

Section Aggregator.
Variable nL : nat.
Variable to_datetime : string -> Date.

Lemma concat_M_ok (members : list Series) :
  members <> [] -> exists ds, concat_M nL members = Ok ds.
Proof.
  destruct members as [|m0 rest]; [congruence|]. intros _. simpl. now eexists.
Qed.


Lemma sel_slice_in {A : Type} (lo hi : Date) (da : list (Date * A)) (x : Date * A) :
  In x (sel_slice lo hi da)
  <-> In x da /\ date_leb lo (fst x) = true /\ date_leb (fst x) hi = true.
Proof. unfold sel_slice. now rewrite filter_In, andb_true_iff. Qed.



End Aggregator.



Example climatology_of_two_days :
  ClimatologyEngine 2 series_common_year
  = Ok ([(1, [Some 1%Q; Some 2%Q]); (2, [Some 3%Q; Some 4%Q])],
        [(1, [Some (61 # 31)%Q; Some (92 # 31)%Q]);
         (2, [Some (63 # 31)%Q; Some (94 # 31)%Q])]).
Proof. vm_compute. reflexivity. Qed.

Example climfname_prefixed :
  prefixed "2015-01-01" "2015-01-02" "day_clim.y40.x255.nc"
  = "2015-01-01.2015-01-02.day_clim.y40.x255.nc"%string.
Proof. reflexivity. Qed.

Example aggregator_full_range :
  EnsembleAggregator 2 parse_Ymd 0 "2015-01-02" "2015-01-09"
                     [series_common_year; series_common_year]
  = Ok (series_common_year, ("2015-01-01", "2015-01-02")%string).
Proof. vm_compute. reflexivity. Qed.

Example aggregator_window :
  EnsembleAggregator 2 parse_Ymd 1 "2015-01-02" "2015-01-09"
                     [series_common_year; series_common_year]
  = Ok ([(mkDate 2015 1 2, [Some 3%Q; Some 4%Q])], ("2015-01-02", "2015-01-09")%string).
Proof. vm_compute. reflexivity. Qed.




(** ** Ensemble mean of identical members *)

Local Open Scope Q_scope.







Section IdenticalMembers.
Variable nL : nat.




End IdenticalMembers.






Example ensemble_mean_of_three :
  EnsembleAggregator 2 parse_Ymd 0 "" ""
                     (repeat [(mkDate 2015 1 1, [Some (1 # 10); None]);
                              (mkDate 2015 1 2, [Some 3; Some (7 # 2)])] 3)
  = Ok ([(mkDate 2015 1 1, [Some (1 # 10); None]);
         (mkDate 2015 1 2, [Some 3; Some (7 # 2)])],
        ("2015-01-01", "2015-01-02")%string).
Proof. vm_compute. reflexivity. Qed.

(** * Further properties of the script *)

(** ** [S.dayofyear] *)

Local Open Scope Z_scope.

(** X1: the day of year of a valid date lies in 1..365, or 1..366 in a leap
    year; it is 1 exactly on 1 January, and 366 only on 31 December of a
    leap year. *)
Theorem X1_dayofyear_in_year (d : Date) :
  valid_date d = true ->
  1 <= dayofyear d <= (if is_leap_year (year d) then 366 else 365)
  /\ (dayofyear d = 1 <-> month d = 1 /\ day d = 1)
  /\ (dayofyear d = 366 ->
      is_leap_year (year d) = true /\ month d = 12 /\ day d = 31).
Proof.
  intros Hv. split; [now apply dayofyear_range|]. split; [|now apply dayofyear_366].
  destruct d as [y m dd]. unfold valid_date, dayofyear in *. cbn [year month day] in *.
  rewrite !andb_true_iff, !Z.leb_le in Hv. destruct Hv as [[[Hm1 Hm2] Hd1] Hd2].
  assert (Hc := month_cases m (conj Hm1 Hm2)).
  repeat (destruct Hc as [Hc|Hc]); subst m;
    unfold days_before_month, days_in_month in *;
    destruct (is_leap_year y); cbn in Hd2; eval_days_before; lia.
Qed.

Lemma X1_dayofyear_in_year_witness :
  1 <= dayofyear (mkDate 2016 12 31)
    <= (if is_leap_year (year (mkDate 2016 12 31)) then 366 else 365)
  /\ (dayofyear (mkDate 2016 12 31) = 1
      <-> month (mkDate 2016 12 31) = 1 /\ day (mkDate 2016 12 31) = 1)
  /\ (dayofyear (mkDate 2016 12 31) = 366 ->
      is_leap_year (year (mkDate 2016 12 31)) = true
      /\ month (mkDate 2016 12 31) = 12 /\ day (mkDate 2016 12 31) = 31).
Proof. apply (X1_dayofyear_in_year (mkDate 2016 12 31)). reflexivity. Defined.

(** X2: within one year the day of year grows with the date, so two valid
    dates of the same year with the same day of year are the same date:
    a day-of-year group holds at most one start date per year. *)
Theorem X2_dayofyear_increasing (a b : Date) :
  valid_date a = true -> valid_date b = true -> year a = year b ->
  (date_ltb a b = true -> dayofyear a < dayofyear b)
  /\ (dayofyear a = dayofyear b -> a = b).
Proof.
  intros Ha Hb Hy.
  destruct a as [y m d], b as [y' m' d']. cbn [year] in Hy. subst y'.
  unfold valid_date, dayofyear in *. cbn [year month day] in *.
  rewrite !andb_true_iff, !Z.leb_le in Ha, Hb.
  destruct Ha as [[[Hm1 Hm2] Hd1] Hd2], Hb as [[[Hm1' Hm2'] Hd1'] Hd2'].
  rewrite date_ltb_spec. cbn [year month day].
  assert (Hc := month_cases m (conj Hm1 Hm2)).
  assert (Hc' := month_cases m' (conj Hm1' Hm2')).
  repeat (destruct Hc as [Hc|Hc]); subst m;
    repeat (destruct Hc' as [Hc'|Hc']); subst m';
    unfold days_before_month, days_in_month in *;
    destruct (is_leap_year y); cbn in Hd2, Hd2'; eval_days_before;
    (split; [lia|intros E; f_equal; lia]).
Qed.

Lemma X2_dayofyear_increasing_witness :
  (date_ltb (mkDate 2015 2 28) (mkDate 2015 3 1) = true ->
   dayofyear (mkDate 2015 2 28) < dayofyear (mkDate 2015 3 1))
  /\ (dayofyear (mkDate 2015 2 28) = dayofyear (mkDate 2015 3 1) ->
      mkDate 2015 2 28 = mkDate 2015 3 1).
Proof.
  apply (X2_dayofyear_increasing (mkDate 2015 2 28) (mkDate 2015 3 1));
    reflexivity.
Defined.

(** X3: a calendar date from March on falls one day of year later in a
    leap year than in a common year, and a date of January or February on
    the same one: a day-of-year group from 60 on mixes two neighbouring
    calendar dates across years. *)
Theorem X3_dayofyear_leap_shift (y y' m d : Z) :
  is_leap_year y = true -> is_leap_year y' = false -> 1 <= m <= 12 ->
  dayofyear (mkDate y m d)
  = dayofyear (mkDate y' m d) + (if m <=? 2 then 0 else 1).
Proof.
  intros Hy Hy' Hm. unfold dayofyear. cbn [year month day].
  assert (Hc := month_cases m Hm).
  repeat (destruct Hc as [Hc|Hc]); subst m;
    unfold days_before_month, days_in_month; rewrite ?Hy, ?Hy';
    eval_days_before;
    match goal with
    | |- context [?a <=? 2] =>
        let v := eval vm_compute in (a <=? 2) in change (a <=? 2) with v
    end; cbv iota; lia.
Qed.

Lemma X3_dayofyear_leap_shift_witness :
  dayofyear (mkDate 2016 3 1)
  = dayofyear (mkDate 2015 3 1) + (if 3 <=? 2 then 0 else 1).
Proof.
  apply (X3_dayofyear_leap_shift 2016 2015 3 1); [reflexivity|reflexivity|lia].
Defined.
Local Open Scope Z_scope.

(** ** The raw climatology (line 67) *)

Section RawClimatology.
Variable nL : nat.

Lemma groupby_lookup (s : Series) (g : list (Z * row)) (d : Z) (r : row) :
  groupby_dayofyear_mean nL s = Ok g ->
  lookup Z.eqb d g = Some r ->
  r = nanmean_rows nL (map snd (filter (fun x => dayofyear (fst x) =? d) s)).
Proof.
  unfold groupby_dayofyear_mean. destruct s as [|x s]; [discriminate|].
  intros H. injection H as <-.
  rewrite (lookup_map_index
             (fun d => nanmean_rows nL
                         (map snd (filter (fun x => dayofyear (fst x) =? d) (x :: s))))).
  destruct (in_dec Z.eq_dec d _); [|discriminate].
  intros E. now injection E as <-.
Qed.

Lemma groupby_cell (s : Series) (g : list (Z * row)) (d : Z) (r : row) (j : nat) :
  groupby_dayofyear_mean nL s = Ok g ->
  lookup Z.eqb d g = Some r -> (j < nL)%nat ->
  nth j r None = nanmean (day_cells d j s).
Proof.
  intros Hg Hl Hj. rewrite (groupby_lookup s g d r Hg Hl).
  unfold nanmean_rows. rewrite reduce_rows_nth by exact Hj.
  unfold nanmean, day_cells. now rewrite map_map.
Qed.

Lemma groupby_row_length (s : Series) (g : list (Z * row)) (e : Z * row) :
  groupby_dayofyear_mean nL s = Ok g -> In e g -> length (snd e) = nL.
Proof.
  unfold groupby_dayofyear_mean. destruct s as [|x s]; [discriminate|].
  intros H. injection H as <-. intros He. apply in_map_iff in He.
  destruct He as (d & <- & _). apply reduce_rows_length.
Qed.

Lemma groupby_sorted (s : Series) (g : list (Z * row)) :
  groupby_dayofyear_mean nL s = Ok g -> StronglySorted Z.lt (map fst g).
Proof. intros H. rewrite (groupby_labels nL s g H). apply sort_uniq_sorted. Qed.

Lemma groupby_entry (s : Series) (g : list (Z * row)) (e : Z * row) :
  groupby_dayofyear_mean nL s = Ok g -> In e g ->
  lookup Z.eqb (fst e) g = Some (snd e).
Proof.
  unfold groupby_dayofyear_mean. destruct s as [|x s]; [discriminate|].
  intros H. injection H as <-. intros He. apply in_map_iff in He.
  destruct He as (d & <- & Hd). cbn [fst snd].
  rewrite (lookup_map_index
             (fun d => nanmean_rows nL
                         (map snd (filter (fun x => dayofyear (fst x) =? d) (x :: s))))).
  destruct (in_dec Z.eq_dec d _); [reflexivity|contradiction].
Qed.

End RawClimatology.

(** X4: for a non-empty series the raw climatology is produced; its index
    is strictly increasing and holds exactly the days of year on which a
    start date falls, all within 1..366 when the dates are valid; every row
    has one cell per lead. *)
Theorem X4_raw_climatology_index (nL : nat) (s : Series) :
  s <> [] ->
  exists g,
    groupby_dayofyear_mean nL s = Ok g
    /\ StronglySorted Z.lt (map fst g)
    /\ (forall d, In d (map fst g) <-> exists x, In x s /\ dayofyear (fst x) = d)
    /\ ((forall x, In x s -> valid_date (fst x) = true) ->
        forall d, In d (map fst g) -> 1 <= d <= 366)
    /\ (forall e, In e g -> length (snd e) = nL).
Proof.
  intros Hne. destruct (groupby_ok nL s Hne) as [g Hg]. exists g.
  split; [exact Hg|]. split; [now apply groupby_sorted with (nL := nL) (s := s)|].
  split; [intros d; now apply groupby_label_in with (nL := nL)|]. split.
  - intros Hv d Hd. apply (groupby_label_in nL s g d Hg) in Hd.
    destruct Hd as (x & Hx & <-). now apply dayofyear_range_366, Hv.
  - intros e He. now apply groupby_row_length with (s := s) (g := g).
Qed.

Lemma X4_raw_climatology_index_witness :
  exists g,
    groupby_dayofyear_mean 2 series_leap_december = Ok g
    /\ StronglySorted Z.lt (map fst g)
    /\ (forall d, In d (map fst g)
                  <-> exists x, In x series_leap_december /\ dayofyear (fst x) = d)
    /\ ((forall x, In x series_leap_december -> valid_date (fst x) = true) ->
        forall d, In d (map fst g) -> 1 <= d <= 366)
    /\ (forall e, In e g -> length (snd e) = 2%nat).
Proof. apply (X4_raw_climatology_index 2 series_leap_december). discriminate. Defined.

(** X5: a value of the raw climatology at day [d] and lead [j] is the mean
    of the non-NaN samples of lead [j] whose start date falls on day [d]:
    it is NaN exactly when all of them are NaN, and otherwise their sum
    divided by their number. *)
Theorem X5_raw_climatology_value
        (nL : nat) (s : Series) (g : list (Z * row)) (d : Z) (r : row) (j : nat) :
  groupby_dayofyear_mean nL s = Ok g ->
  lookup Z.eqb d g = Some r -> (j < nL)%nat ->
  (nth j r None = None <-> forall c, In c (day_cells d j s) -> c = None)
  /\ (forall q, nth j r None = Some q ->
        (q == Qsum (present (day_cells d j s))
              / count_Q (length (present (day_cells d j s))))%Q)
  /\ day_cells d j s <> [].
Proof.
  intros Hg Hl Hj. rewrite (groupby_cell nL s g d r j Hg Hl Hj). unfold nanmean.
  split; [apply mean_min_count_1_None|]. split.
  - intros q Hq. now apply mean_min_count_1_Some in Hq.
  - assert (Hin : In d (map fst g)).
    { apply lookup_in in Hl. apply in_map_iff. now exists (d, r). }
    apply (groupby_label_in nL s g d Hg) in Hin. destruct Hin as (x & Hx & E).
    unfold day_cells. intros Hnil. apply map_eq_nil in Hnil.
    assert (Hf : In x (filter (fun x => dayofyear (fst x) =? d) s)).
    { apply filter_In. split; [exact Hx|]. now apply Z.eqb_eq. }
    rewrite Hnil in Hf. destruct Hf.
Qed.

Lemma X5_raw_climatology_value_witness :
  (nth 0 [Some 3%Q; Some 4%Q] None = None
   <-> forall c, In c (day_cells 366 0 series_leap_december) -> c = None)
  /\ (forall q, nth 0 [Some 3%Q; Some 4%Q] None = Some q ->
        (q == Qsum (present (day_cells 366 0 series_leap_december))
              / count_Q (length (present (day_cells 366 0 series_leap_december))))%Q)
  /\ day_cells 366 0 series_leap_december <> [].
Proof.
  apply (X5_raw_climatology_value 2 series_leap_december
           [(365, [Some 1%Q; Some 2%Q]); (366, [Some 3%Q; Some 4%Q])]
           366 [Some 3%Q; Some 4%Q] 0).
  - vm_compute. reflexivity.
  - vm_compute. reflexivity.
  - lia.
Defined.
Local Open Scope Z_scope.

(** ** From the series to the smoothed climatology (lines 67-97) *)

Lemma fillna_row_nan_nth (nL : nat) (r : row) (j : nat) :
  nth j (fillna_row r (nan_row nL)) None
  = if (j <? nL)%nat then nth j r None else None.
Proof.
  unfold fillna_row, nan_row. revert r j.
  induction nL as [|n IH]; intros r j.
  - cbn [repeat]. rewrite combine_nil. now destruct j.
  - destruct r as [|c r]; [destruct j; now destruct (_ <? S n)%nat|].
    destruct j as [|j]; cbn [repeat combine map nth fst snd].
    + now destruct c.
    + rewrite IH. reflexivity.
Qed.

Lemma sorted_lt_NoDup (l : list Z) : StronglySorted Z.lt l -> NoDup l.
Proof.
  induction 1 as [|x l Hs IH Hall]; constructor; [|exact IH].
  intros Hin. rewrite Forall_forall in Hall. specialize (Hall x Hin). lia.
Qed.

Lemma dayofyear_axis_NoDup : NoDup dayofyear_axis.
Proof. apply sorted_lt_NoDup, seq_Z_sorted. Qed.

Section EndToEnd.
Variable nL : nat.

Lemma wnan_cell_source (g : list (Z * row)) (e : Z * row) (j : nat) (v : Q) :
  In e (da_day_clim_wnan nL g) -> nth j (snd e) None = Some v ->
  exists e', In e' g /\ nth j (snd e') None = Some v.
Proof.
  intros He Hv. rewrite (wnan_in nL g e He), fillna_row_nan_nth in Hv.
  destruct (j <? nL)%nat; [|discriminate].
  unfold reindex in Hv. destruct (lookup Z.eqb (fst e) g) as [r|] eqn:El.
  - exists (fst e, r). split; [now apply lookup_in|exact Hv].
  - rewrite nan_row_nth in Hv. discriminate.
Qed.


Lemma wnan_nan (j : nat) (g : list (Z * row)) :
  col_nan j g -> col_nan j (da_day_clim_wnan nL g).
Proof.
  intros Hn e He. destruct (nth j (snd e) None) as [v|] eqn:E; [|reflexivity].
  destruct (wnan_cell_source g e j v He E) as (e' & He' & Hv').
  rewrite (Hn e' He') in Hv'. discriminate.
Qed.

Lemma smooth_pass_nan (j : nat) (da : list (Z * row)) :
  col_nan j da -> col_nan j (smooth_pass nL da).
Proof.
  intros Hn e He. apply smooth_pass_in in He. destruct He as (i & _ & He).
  rewrite He. destruct (Nat.lt_ge_cases j nL) as [Hj|Hj].
  - rewrite reduce_rows_nth by exact Hj. apply mean_min_count_1_None.
    intros c Hc. apply window_cell_source in Hc. destruct Hc as (e' & Hin & <-).
    now apply Hn.
  - apply nth_overflow. now rewrite reduce_rows_length.
Qed.

Lemma smooth_twice_nan (j : nat) (da : list (Z * row)) :
  col_nan j da -> col_nan j (smooth_twice nL da).
Proof. intros H. unfold smooth_twice. simpl. now apply smooth_pass_nan, smooth_pass_nan. Qed.

Lemma day_cells_source (d : Z) (j : nat) (s : Series) (c : cell) :
  In c (day_cells d j s) -> exists x, In x s /\ nth j (snd x) None = c.
Proof.
  unfold day_cells. intros H. apply in_map_iff in H. destruct H as (x & <- & Hx).
  apply filter_In in Hx. exists x. tauto.
Qed.


Lemma groupby_nan (j : nat) (s : Series) (g : list (Z * row)) :
  groupby_dayofyear_mean nL s = Ok g ->
  (forall x, In x s -> nth j (snd x) None = None) -> col_nan j g.
Proof.
  intros Hg Hn e He. destruct (Nat.lt_ge_cases j nL) as [Hj|Hj].
  - rewrite (groupby_cell nL s g (fst e) (snd e) j Hg (groupby_entry nL s g e Hg He) Hj).
    apply mean_min_count_1_None. intros c Hc.
    apply day_cells_source in Hc. destruct Hc as (x & Hx & <-). now apply Hn.
  - apply nth_overflow. now rewrite (groupby_row_length nL s g e Hg He).
Qed.

Lemma engine_unfold (s : Series) (raw smooth : list (Z * row)) :
  ClimatologyEngine nL s = Ok (raw, smooth) ->
  groupby_dayofyear_mean nL s = Ok raw /\ da_day_clim_smooth nL raw = Ok smooth.
Proof.
  unfold ClimatologyEngine.
  destruct (groupby_dayofyear_mean nL s) as [e|g]; [discriminate|]. cbn [bind].
  destruct (da_day_clim_smooth nL g) as [e|sm] eqn:E; [discriminate|]. cbn [bind].
  intros H. injection H as <- <-. split; [reflexivity|exact E].
Qed.

End EndToEnd.



(** X7: a lead at which every sample of the series is NaN is NaN throughout
    both climatologies: neither the grouping, the padding nor the smoothing
    puts a value where the series has none. *)
Theorem X7_nan_lead_stays_nan
        (nL : nat) (s : Series) (j : nat) (raw smooth : list (Z * row)) :
  ClimatologyEngine nL s = Ok (raw, smooth) ->
  (forall x, In x s -> nth j (snd x) None = None) ->
  col_nan j raw /\ col_nan j smooth.
Proof.
  intros H Hn. apply engine_unfold in H. destruct H as [Hraw Hsm].
  assert (Hr := groupby_nan nL j s raw Hraw Hn). split; [exact Hr|].
  intros e He. apply (smooth_twice_nan nL j _ (wnan_nan nL j raw Hr)).
  now apply (da_day_clim_smooth_sub nL raw smooth Hsm).
Qed.

Lemma X7_nan_lead_stays_nan_witness :
  col_nan 1 [(1, [Some 1%Q; None]); (2, [Some 3%Q; None])]
  /\ col_nan 1 [(1, [Some (61 # 31)%Q; None]); (2, [Some (63 # 31)%Q; None])].
Proof.
  apply (X7_nan_lead_stays_nan 2
           [(mkDate 2015 1 1, [Some 1%Q; None]); (mkDate 2015 1 2, [Some 3%Q; None])] 1).
  - vm_compute. reflexivity.
  - simpl. intros x [<-|[<-|[]]]; reflexivity.
Defined.
Local Open Scope Z_scope.

(** ** The final selection (line 97) *)

Section FinalSelection.
Variable nL : nat.

Lemma lookup_unique_label (da : list (Z * row)) (e : Z * row) :
  NoDup (map fst da) -> In e da -> lookup Z.eqb (fst e) da = Some (snd e).
Proof.
  induction da as [|[k r] da IH]; intros Hnd Hin; [destruct Hin|].
  simpl in Hnd. inversion Hnd as [|? ? Hnot Hnd']. subst.
  simpl. destruct Hin as [<-|Hin].
  - cbn [fst snd]. now rewrite Z.eqb_refl.
  - destruct (Z.eqb_spec (fst e) k) as [E|_]; [|now apply IH].
    exfalso. apply Hnot. rewrite <- E. now apply in_map.
Qed.

Lemma sel_each_rows (l da : list (Z * row)) :
  (forall e, In e l -> lookup Z.eqb (fst e) da = Some (snd e)) ->
  sel_each Z.eqb (map fst l) da = Ok l.
Proof.
  induction l as [|[k r] l IH]; intros H; [reflexivity|].
  assert (Hk := H (k, r) (or_introl eq_refl)). cbn [fst snd] in Hk.
  cbn [map fst sel_each]. rewrite Hk.
  rewrite IH by (intros e He; apply H; now right). reflexivity.
Qed.

End FinalSelection.

(** X8: when the script produces a smoothed climatology, it has the index
    of the raw climatology and each of its rows is the row of the
    twice-smoothed array under the same day of year; when the raw
    climatology has all of 1..366, it is the twice-smoothed array itself
    (the selection changes nothing). *)
Theorem X8_final_selection (nL : nat) (g out : list (Z * row)) :
  da_day_clim_smooth nL g = Ok out ->
  map fst out = map fst g
  /\ (forall e, In e out ->
        lookup Z.eqb (fst e) (smooth_twice nL (da_day_clim_wnan nL g)) = Some (snd e))
  /\ (map fst g = dayofyear_axis -> out = smooth_twice nL (da_day_clim_wnan nL g)).
Proof.
  intros Hout. assert (H := Hout). unfold da_day_clim_smooth, sel_labels in H.
  destruct (nL =? 1)%nat; [discriminate|].
  destruct (has_duplicates Z.ltb _); [discriminate|].
  destruct (sel_each_spec _ _ _ H) as [Hl Hr].
  split; [exact Hl|]. split; [exact Hr|].
  intros Hax.
  assert (Hsm : map fst (smooth_twice nL (da_day_clim_wnan nL g)) = dayofyear_axis).
  { apply smooth_twice_axis. intros d Hd. apply dayofyear_axis_in. now rewrite <- Hax. }
  rewrite Hax, <- Hsm, sel_each_rows in H.
  - now injection H as <-.
  - intros e He. apply lookup_unique_label; [|exact He].
    rewrite Hsm. apply dayofyear_axis_NoDup.
Qed.

Lemma X8_final_selection_witness :
  exists out,
    da_day_clim_smooth 2 (const_clim 2 366 (5 # 2)) = Ok out
    /\ (map fst (const_clim 2 366 (5 # 2)) = dayofyear_axis ->
        out = smooth_twice 2 (da_day_clim_wnan 2 (const_clim 2 366 (5 # 2)))).
Proof.
  destruct (da_day_clim_smooth 2 (const_clim 2 366 (5 # 2))) as [e|out] eqn:E.
  - exfalso. vm_compute in E. discriminate.
  - exists out. split; [reflexivity|].
    apply (X8_final_selection 2 (const_clim 2 366 (5 # 2)) out E).
Defined.

Local Open Scope Q_scope.

(** ** Sums of rationals *)













Local Open Scope Q_scope.

(** ** The smoothing as a periodic filter (lines 83-95) *)



Section PeriodicFilter.
Variable nL : nat.

Lemma pass_cell (da : list (Z * row)) (k j : nat) :
  (15 <= length da)%nat -> (k < length da)%nat -> (j < nL)%nat ->
  cell_of (smooth_pass nL da) k j
  = mean_min_count 1 (map (fun t => cell_of da (around (length da) k t 15) j) (seq 0 31)).
Proof.
  intros Hn Hk Hj. unfold cell_of at 1.
  rewrite smooth_pass_nth by assumption. cbn [snd].
  rewrite reduce_rows_nth by exact Hj. now rewrite map_map.
Qed.

Lemma around_lt (n k off back : nat) : (0 < n)%nat -> (around n k off back < n)%nat.
Proof. intros Hn. unfold around. apply Nat.mod_upper_bound. lia. Qed.

Lemma around_around (n k s t : nat) :
  (30 <= n)%nat -> around n (around n k s 15) t 15 = around n k (s + t) 30.
Proof.
  intros Hn. unfold around.
  rewrite <- !Nat.add_sub_assoc by lia.
  rewrite <- Nat.add_assoc, Nat.Div0.add_mod_idemp_l.
  replace (k + s + (n - 15) + (t + (n - 15)))%nat
    with (k + (s + t) + (n - 30) + 1 * n)%nat by lia.
  now rewrite Nat.Div0.mod_add.
Qed.





End PeriodicFilter.

(** X9: on an array of at least 15 entries a pass replaces the value at
    each position by the mean of the non-NaN values at the 31 positions
    from 15 before to 15 after it, counted around the circle; the result is
    NaN exactly when all 31 are NaN. *)
Theorem X9_pass_is_circular (nL : nat) (da : list (Z * row)) (k j : nat) :
  (15 <= length da)%nat -> (k < length da)%nat -> (j < nL)%nat ->
  let cells := map (fun t => cell_of da (around (length da) k t 15) j) (seq 0 31) in
  cell_of (smooth_pass nL da) k j = mean_min_count 1 cells
  /\ (cell_of (smooth_pass nL da) k j = None
      <-> forall t, (t < 31)%nat -> cell_of da (around (length da) k t 15) j = None).
Proof.
  intros Hn Hk Hj cells.
  assert (E := pass_cell nL da k j Hn Hk Hj). fold cells in E.
  split; [exact E|]. rewrite E, mean_min_count_1_None. unfold cells. split.
  - intros H t Ht. apply H. apply in_map_iff. exists t. split; [reflexivity|].
    apply in_seq. lia.
  - intros H c Hc. apply in_map_iff in Hc. destruct Hc as (t & <- & Ht).
    apply in_seq in Ht. apply H. lia.
Qed.

Lemma X9_pass_is_circular_witness :
  let cells :=
    map (fun t => cell_of (da_day_clim_wnan 2 clim_three_days)
                          (around (length (da_day_clim_wnan 2 clim_three_days)) 365 t 15) 0)
        (seq 0 31) in
  cell_of (smooth_pass 2 (da_day_clim_wnan 2 clim_three_days)) 365 0
  = mean_min_count 1 cells
  /\ (cell_of (smooth_pass 2 (da_day_clim_wnan 2 clim_three_days)) 365 0 = None
      <-> forall t, (t < 31)%nat ->
                    cell_of (da_day_clim_wnan 2 clim_three_days)
                            (around (length (da_day_clim_wnan 2 clim_three_days)) 365 t 15) 0
                    = None).
Proof.
  apply (X9_pass_is_circular 2 (da_day_clim_wnan 2 clim_three_days) 365 0).
  - vm_compute. lia.
  - vm_compute. lia.
  - lia.
Defined.


Local Open Scope Q_scope.

(** ** Two passes make a triangular filter *)





Local Open Scope Z_scope.

(** ** Indexes over a strict total order *)

Section OrderedIndex.
Context {K : Type}.
Variable ltb : K -> K -> bool.
Hypothesis ltb_irrefl : forall x, ltb x x = false.
Hypothesis ltb_trans : forall x y z, ltb x y = true -> ltb y z = true -> ltb x z = true.
Hypothesis ltb_total : forall x y, ltb x y = false -> ltb y x = false -> x = y.

Lemma ord_insert_in (x y : K) (l : list K) :
  In x (insert_uniq ltb y l) <-> x = y \/ In x l.
Proof.
  induction l as [|z l IH]; simpl.
  - intuition.
  - destruct (ltb y z) eqn:E1; [simpl; intuition|].
    destruct (ltb z y) eqn:E2; simpl.
    + rewrite IH. intuition.
    + assert (y = z) by now apply ltb_total. subst. intuition.
Qed.

Lemma ord_sort_in (x : K) (l : list K) : In x (sort_uniq ltb l) <-> In x l.
Proof.
  induction l as [|y l IH]; simpl; [tauto|].
  rewrite ord_insert_in, IH. intuition.
Qed.

Lemma ord_insert_sorted (y : K) (l : list K) :
  StronglySorted (lt_of ltb) l -> StronglySorted (lt_of ltb) (insert_uniq ltb y l).
Proof.
  induction 1 as [|z l Hs IH Hall]; simpl.
  - constructor; constructor.
  - destruct (ltb y z) eqn:E1.
    + constructor; [now constructor|].
      constructor; [exact E1|].
      eapply Forall_impl; [|exact Hall]. intros a Ha. exact (ltb_trans _ _ _ E1 Ha).
    + destruct (ltb z y) eqn:E2; [|now constructor].
      constructor; [exact IH|].
      apply Forall_forall. intros a Ha. apply ord_insert_in in Ha.
      destruct Ha as [->|Ha]; [exact E2|].
      rewrite Forall_forall in Hall. now apply Hall.
Qed.

Lemma ord_sort_sorted (l : list K) : StronglySorted (lt_of ltb) (sort_uniq ltb l).
Proof.
  induction l as [|y l IH]; simpl; [constructor|].
  now apply ord_insert_sorted.
Qed.


Lemma ord_index_equal_eq (a b : list K) : index_equal ltb a b = true -> a = b.
Proof.
  revert b. induction a as [|x a IH]; intros [|y b] H; simpl in H; try discriminate; auto.
  apply andb_prop in H. destruct H as [H Hab]. apply andb_prop in H. destruct H as [H1 H2].
  apply negb_true_iff in H1, H2.
  f_equal; [now apply ltb_total|now apply IH].
Qed.

Lemma ord_index_union_in (a b : list K) (x : K) :
  In x (index_union ltb a b) <-> In x a \/ In x b.
Proof.
  unfold index_union. destruct a as [|z a], b as [|y b]; try (simpl; tauto).
  destruct (index_equal ltb (z :: a) (y :: b)) eqn:E.
  - apply ord_index_equal_eq in E. rewrite <- E. tauto.
  - rewrite ord_sort_in, in_app_iff. tauto.
Qed.

Lemma ord_index_union_sorted (a b : list K) :
  StronglySorted (lt_of ltb) a -> StronglySorted (lt_of ltb) b ->
  StronglySorted (lt_of ltb) (index_union ltb a b).
Proof.
  intros Ha Hb. unfold index_union. destruct a as [|z a], b as [|y b]; try assumption.
  destruct (index_equal ltb (z :: a) (y :: b)); [exact Ha|apply ord_sort_sorted].
Qed.

Lemma ord_fold_union_in (rest : list (list K)) (a : list K) (x : K) :
  In x (fold_left (index_union ltb) rest a)
  <-> In x a \/ exists l, In l rest /\ In x l.
Proof.
  revert a. induction rest as [|b rest IH]; intros a; cbn [fold_left].
  - split; [auto|]. intros [H|(l & [] & _)]. exact H.
  - rewrite IH, ord_index_union_in. split.
    + intros [[H|H]|(l & Hl & Hx)]; [now left| |].
      * right. exists b. split; [now left|exact H].
      * right. exists l. split; [now right|exact Hx].
    + intros [H|(l & [<-|Hl] & Hx)]; [now left; left|now left; right|].
      right. now exists l.
Qed.

Lemma ord_fold_union_sorted (rest : list (list K)) (a : list K) :
  StronglySorted (lt_of ltb) a -> Forall (StronglySorted (lt_of ltb)) rest ->
  StronglySorted (lt_of ltb) (fold_left (index_union ltb) rest a).
Proof.
  revert a. induction rest as [|b rest IH]; intros a Ha Hr; cbn [fold_left]; [exact Ha|].
  inversion Hr; subst. apply IH; [now apply ord_index_union_sorted|assumption].
Qed.

End OrderedIndex.

(** ** Alignment of the members (lines 39-48) *)

Lemma date_ltb_trans (a b c : Date) :
  date_ltb a b = true -> date_ltb b c = true -> date_ltb a c = true.
Proof. rewrite !date_ltb_spec. lia. Qed.

Lemma date_ltb_total (a b : Date) :
  date_ltb a b = false -> date_ltb b a = false -> a = b.
Proof.
  intros H1 H2.
  assert (N1 : ~ date_ltb a b = true) by congruence.
  assert (N2 : ~ date_ltb b a = true) by congruence.
  rewrite date_ltb_spec in N1, N2.
  destruct a as [y m d], b as [y' m' d']. cbn [year month day] in *.
  f_equal; lia.
Qed.
Local Open Scope Z_scope.

Section Alignment.
Variable nL : nat.

Lemma concat_M_axis (members : list Series) (ds : Array3) :
  concat_M nL members = Ok ds ->
  exists m0 rest,
    members = m0 :: rest
    /\ map fst ds = fold_left (index_union date_ltb) (map (map fst) rest) (map fst m0)
    /\ ds = map (fun t => (t, map (reindex nL date_eqb t) members)) (map fst ds).
Proof.
  unfold concat_M. destruct members as [|m0 rest]; [discriminate|].
  intros H. injection H as <-. exists m0, rest. split; [reflexivity|].
  set (axis := fold_left _ _ _).
  assert (E : map fst (map (fun t => (t, map (reindex nL date_eqb t) (m0 :: rest))) axis)
              = axis).
  { clearbody axis. induction axis as [|t l IH]; [reflexivity|].
    cbn [map fst]. f_equal. exact IH. }
  split; [exact E|]. apply f_equal. symmetry. exact E.
Qed.

Lemma concat_M_dates (members : list Series) (ds : Array3) (t : Date) :
  concat_M nL members = Ok ds ->
  In t (map fst ds) <-> exists m, In m members /\ In t (map fst m).
Proof.
  intros H. destruct (concat_M_axis members ds H) as (m0 & rest & -> & Hax & _).
  rewrite Hax, (ord_fold_union_in date_ltb date_ltb_total). split.
  - intros [Ht|(l & Hl & Ht)].
    + exists m0. split; [now left|exact Ht].
    + apply in_map_iff in Hl. destruct Hl as (m & <- & Hm).
      exists m. split; [now right|exact Ht].
  - intros (m & [<-|Hm] & Ht); [now left|].
    right. exists (map fst m). split; [now apply in_map|exact Ht].
Qed.

Lemma concat_M_sorted (members : list Series) (ds : Array3) :
  concat_M nL members = Ok ds ->
  Forall increasing_dates members -> StronglySorted date_lt (map fst ds).
Proof.
  intros H Hinc. destruct (concat_M_axis members ds H) as (m0 & rest & -> & Hax & _).
  rewrite Hax. inversion Hinc; subst.
  apply (ord_fold_union_sorted date_ltb date_ltb_trans date_ltb_total); [assumption|].
  apply Forall_forall. intros l Hl. apply in_map_iff in Hl.
  destruct Hl as (m & <- & Hm).
  match goal with H : Forall _ rest |- _ => rewrite Forall_forall in H; now apply H end.
Qed.



End Alignment.





Lemma da_ensmean_sel_slice (nL nens : nat) (lo hi : Date) (ds : Array3) :
  da_ensmean nL nens (sel_slice lo hi ds) = sel_slice lo hi (da_ensmean nL nens ds).
Proof.
  unfold da_ensmean, sel_slice.
  destruct (1 <? nens)%nat; induction ds as [|e ds IH]; try reflexivity;
    cbn [filter map fst];
    destruct (date_leb lo (fst e) && date_leb (fst e) hi); cbn [map]; now rewrite IH.
Qed.

Lemma last_of_map {A B : Type} (f : A -> B) (l : list A) (d : A) :
  last (map f l) (f d) = f (last l d).
Proof.
  induction l as [|x l IH]; [reflexivity|].
  destruct l as [|y l]; [reflexivity|]. exact IH.
Qed.

Lemma subsample_lift {A B : Type} (to_datetime : string -> Date) (g : A -> B)
      (flag : Z) (starttime endtime : string) (da : list (Date * A)) :
  subsample to_datetime flag starttime endtime (map (fun s => (fst s, g (snd s))) da)
  = match subsample to_datetime flag starttime endtime da with
    | inl e => inl e
    | inr sub => inr (map (fun s => (fst s, g (snd s))) (fst sub), snd sub)
    end.
Proof.
  unfold subsample. destruct (1 =? flag).
  - rewrite length_map. destruct (length da =? 1)%nat; [reflexivity|].
    unfold Ok. cbn [fst snd]. do 2 f_equal.
    unfold sel_slice. induction da as [|e da IH]; [reflexivity|].
    cbn [filter map fst].
    destruct (date_leb _ (fst e) && date_leb (fst e) _); cbn [map]; now rewrite IH.
  - destruct da as [|s0 [|s1 da]]; try reflexivity.
    change (map (fun s => (fst s, g (snd s))) (s0 :: s1 :: da))
      with ((fst s0, g (snd s0)) :: map (fun s => (fst s, g (snd s))) (s1 :: da)).
    cbv iota. unfold Ok. cbn [fst snd]. do 3 f_equal.
    change ((fst s0, g (snd s0)) :: map (fun s => (fst s, g (snd s))) (s1 :: da))
      with (map (fun s => (fst s, g (snd s))) (s0 :: s1 :: da)).
    now rewrite (last_of_map (fun s => (fst s, g (snd s)))).
Qed.

Lemma aggregator_after_mean
      (nL : nat) (to_datetime : string -> Date) (flag : Z)
      (starttime endtime : string) (members : list Series) (ds : Array3) :
  concat_M nL members = Ok ds ->
  EnsembleAggregator nL to_datetime flag starttime endtime members
  = subsample to_datetime flag starttime endtime (da_ensmean nL (length members) ds).
Proof.
  intros Hds. unfold EnsembleAggregator. rewrite Hds. unfold Ok at 1. cbn [bind].
  unfold da_ensmean. destruct (1 <? length members)%nat; rewrite subsample_lift;
    destruct (subsample to_datetime flag starttime endtime ds) as [e|[d dates]];
    reflexivity.
Qed.

(** X14: the aggregator gives the same outcome (series and dates, or
    exception) as reducing the member axis of the whole array first and
    cutting the time axis to the window afterwards; in particular the
    reduced window is the window of the reduced array. *)
Theorem X14_window_commutes_with_mean
        (nL : nat) (to_datetime : string -> Date) (flag : Z)
        (starttime endtime : string) (members : list Series) (ds : Array3)
        (lo hi : Date) :
  concat_M nL members = Ok ds ->
  EnsembleAggregator nL to_datetime flag starttime endtime members
  = subsample to_datetime flag starttime endtime (da_ensmean nL (length members) ds)
  /\ da_ensmean nL (length members) (sel_slice lo hi ds)
     = sel_slice lo hi (da_ensmean nL (length members) ds).
Proof.
  intros Hds. split; [now apply aggregator_after_mean|apply da_ensmean_sel_slice].
Qed.

Lemma X14_window_commutes_with_mean_witness :
  EnsembleAggregator 2 parse_Ymd 1 "2015-01-02" "2015-01-09"
                     [series_common_year; series_common_year]
  = subsample parse_Ymd 1 "2015-01-02" "2015-01-09"
              (da_ensmean 2 (length [series_common_year; series_common_year])
                 [(mkDate 2015 1 1, [[Some 1%Q; Some 2%Q]; [Some 1%Q; Some 2%Q]]);
                  (mkDate 2015 1 2, [[Some 3%Q; Some 4%Q]; [Some 3%Q; Some 4%Q]])])
  /\ da_ensmean 2 (length [series_common_year; series_common_year])
       (sel_slice (mkDate 2015 1 2) (mkDate 2015 1 9)
          [(mkDate 2015 1 1, [[Some 1%Q; Some 2%Q]; [Some 1%Q; Some 2%Q]]);
           (mkDate 2015 1 2, [[Some 3%Q; Some 4%Q]; [Some 3%Q; Some 4%Q]])])
     = sel_slice (mkDate 2015 1 2) (mkDate 2015 1 9)
         (da_ensmean 2 (length [series_common_year; series_common_year])
            [(mkDate 2015 1 1, [[Some 1%Q; Some 2%Q]; [Some 1%Q; Some 2%Q]]);
             (mkDate 2015 1 2, [[Some 3%Q; Some 4%Q]; [Some 3%Q; Some 4%Q]])]).
Proof.
  apply (X14_window_commutes_with_mean 2 parse_Ymd 1 "2015-01-02" "2015-01-09"
           [series_common_year; series_common_year]).
  vm_compute. reflexivity.
Defined.
Local Open Scope Z_scope.

(** ** Dates in file names (lines 54-58) *)

Lemma digit_value_digit (n : Z) : digit_value (digit n) = n mod 10.
Proof.
  unfold digit_value, digit.
  assert (H := Z.mod_pos_bound n 10 ltac:(lia)).
  rewrite nat_ascii_embedding by lia. lia.
Qed.

Lemma two_digits (n : Z) : 0 <= n <= 99 -> 10 * (n / 10 mod 10) + n mod 10 = n.
Proof.
  intros H. rewrite (Z.mod_small (n / 10)).
  - pose proof (Z.div_mod n 10 ltac:(lia)). lia.
  - split; [apply Z.div_pos; lia|]. apply Z.div_lt_upper_bound; lia.
Qed.

Lemma four_digits (n : Z) :
  0 <= n <= 9999 ->
  1000 * (n / 1000 mod 10) + 100 * (n / 100 mod 10) + 10 * (n / 10 mod 10) + n mod 10 = n.
Proof.
  intros H.
  assert (H1 : n / 100 = n / 10 / 10) by (rewrite Z.div_div; [reflexivity|lia|lia]).
  assert (H2 : n / 1000 = n / 100 / 10) by (rewrite Z.div_div; [reflexivity|lia|lia]).
  rewrite (Z.mod_small (n / 1000)).
  - pose proof (Z.div_mod n 10 ltac:(lia)).
    pose proof (Z.div_mod (n / 10) 10 ltac:(lia)).
    pose proof (Z.div_mod (n / 100) 10 ltac:(lia)).
    rewrite <- H1 in *. rewrite <- H2 in *. lia.
  - split; [apply Z.div_pos; lia|]. apply Z.div_lt_upper_bound; lia.
Qed.

Lemma parse_strftime (d : Date) :
  0 <= year d <= 9999 -> 0 <= month d <= 99 -> 0 <= day d <= 99 ->
  parse_Ymd (strftime_Ymd d) = d.
Proof.
  destruct d as [y m dd]. intros Hy Hm Hd. cbn [year month day] in *.
  unfold parse_Ymd, strftime_Ymd, pad4, pad2. cbn [year month day].
  cbn [String.append list_ascii_of_string map]. rewrite !digit_value_digit.
  f_equal; [now apply four_digits|now apply two_digits|now apply two_digits].
Qed.


Local Open Scope Z_scope.

(** ** The order of the members *)







Local Open Scope Z_scope.

(** ** The reported dates as a window *)

Lemma filter_all {A : Type} (f : A -> bool) (l : list A) :
  (forall x, In x l -> f x = true) -> filter f l = l.
Proof.
  induction l as [|x l IH]; intros H; [reflexivity|].
  cbn [filter]. rewrite (H x (or_introl eq_refl)). f_equal.
  apply IH. intros y Hy. apply H. now right.
Qed.

Lemma date_leb_refl (a : Date) : date_leb a a = true.
Proof. unfold date_leb. now rewrite date_ltb_irrefl. Qed.

Lemma date_lt_leb (a b : Date) : date_lt a b -> date_leb a b = true.
Proof.
  unfold date_lt, date_leb. intros H.
  destruct (date_ltb b a) eqn:E; [|reflexivity].
  assert (Haa := date_ltb_trans _ _ _ H E). rewrite date_ltb_irrefl in Haa. discriminate.
Qed.

Lemma sorted_last_max (l : list Date) (d x : Date) :
  StronglySorted date_lt l -> In x l -> date_leb x (last l d) = true.
Proof.
  induction 1 as [|y l Hs IH Hall]; intros Hin; [destruct Hin|].
  destruct l as [|z l].
  - destruct Hin as [<-|[]]. apply date_leb_refl.
  - change (last (y :: z :: l) d) with (last (z :: l) d).
    destruct Hin as [<-|Hin]; [|now apply IH].
    rewrite Forall_forall in Hall. apply date_lt_leb, Hall.
    clear. revert z. induction l as [|w l IHl]; intros z; [now left|].
    change (last (z :: w :: l) d) with (last (w :: l) d). right. apply IHl.
Qed.

Lemma sel_slice_full {A : Type} (da : list (Date * A)) (s0 : Date * A) (rest : list (Date * A)) :
  StronglySorted date_lt (map fst da) -> da = s0 :: rest ->
  sel_slice (fst s0) (fst (last da s0)) da = da.
Proof.
  intros Hs E. unfold sel_slice. apply filter_all. intros x Hx.
  apply andb_true_iff. split.
  - subst da. cbn [map] in Hs. inversion Hs as [|? ? _ Hall]; subst.
    destruct Hx as [<-|Hx]; [apply date_leb_refl|].
    rewrite Forall_forall in Hall. apply date_lt_leb, Hall. now apply in_map.
  - change (fst (last da s0)) with ((fun s : Date * A => fst s) (last da s0)).
    rewrite <- (last_of_map (fun s : Date * A => fst s)).
    apply sorted_last_max; [exact Hs|now apply in_map].
Qed.

(** X17: when the start dates of every member strictly increase and
    [to_datetime] reads the printed form of each of them back, a run
    without subsampling returns dates that, given back as the window of a
    run with subsampling, return the same series and the same dates. *)
Theorem X17_reported_dates_as_window
        (nL : nat) (to_datetime : string -> Date) (flag : Z)
        (starttime endtime a b : string) (members : list Series) (out : Series) :
  flag <> 1 ->
  Forall increasing_dates members ->
  (forall m t, In m members -> In t (map fst m) -> to_datetime (strftime_Ymd t) = t) ->
  EnsembleAggregator nL to_datetime flag starttime endtime members = Ok (out, (a, b)) ->
  EnsembleAggregator nL to_datetime 1 a b members = Ok (out, (a, b)).
Proof.
  intros Hflag Hinc Hinv Hrun.
  destruct members as [|m0 rest]; [discriminate|].
  destruct (concat_M_ok nL (m0 :: rest) ltac:(discriminate)) as [ds Hds].
  set (members := m0 :: rest) in *.
  rewrite (aggregator_after_mean nL to_datetime flag starttime endtime members ds Hds)
    in Hrun.
  rewrite (aggregator_after_mean nL to_datetime 1 a b members ds Hds).
  set (S0 := da_ensmean nL (length members) ds) in *.
  assert (Hax : map fst S0 = map fst ds).
  { unfold S0, da_ensmean. destruct (1 <? length members)%nat; now rewrite map_map. }
  assert (Hsorted : StronglySorted date_lt (map fst S0)).
  { rewrite Hax. now apply (concat_M_sorted nL members). }
  assert (Hback : forall x, In x S0 -> to_datetime (strftime_Ymd (fst x)) = fst x).
  { intros x Hx. assert (Ht : In (fst x) (map fst ds)) by (rewrite <- Hax; now apply in_map).
    apply (concat_M_dates nL members ds (fst x) Hds) in Ht.
    destruct Ht as (m & Hm & Ht). now apply (Hinv m). }
  unfold subsample in Hrun. destruct (Z.eqb_spec 1 flag) as [E|_]; [congruence|].
  destruct S0 as [|s0 [|s1 S1]] eqn:ES; try discriminate.
  injection Hrun as <- <- <-.
  unfold subsample. cbn [Z.eqb Pos.eqb length Nat.eqb].
  rewrite (Hback s0) by now left.
  change (match S1 with [] => s1 | _ :: _ => last S1 s0 end)
    with (last (s0 :: s1 :: S1) s0).
  rewrite (Hback (last (s0 :: s1 :: S1) s0)).
  - now rewrite (sel_slice_full (s0 :: s1 :: S1) s0 (s1 :: S1) Hsorted eq_refl).
  - destruct (exists_last (l := s0 :: s1 :: S1) ltac:(discriminate)) as (l' & x & E).
    rewrite E, last_last. apply in_or_app. right. now left.
Qed.

Lemma X17_reported_dates_as_window_witness :
  EnsembleAggregator 2 parse_Ymd 1 "2015-01-01" "2015-01-02"
                     [series_common_year; series_common_year]
  = Ok (series_common_year, ("2015-01-01", "2015-01-02")%string).
Proof.
  apply (X17_reported_dates_as_window 2 parse_Ymd 0 "" "" "2015-01-01" "2015-01-02"
           [series_common_year; series_common_year] series_common_year).
  - discriminate.
  - repeat constructor.
  - intros m t [<-|[<-|[]]] [<-|[<-|[]]]; reflexivity.
  - vm_compute. reflexivity.
Defined.
Local Open Scope Z_scope.

(** ** Values that differ in their representation only *)











Local Open Scope Z_scope.

(** ** Runs on cell-wise related series *)

Lemma Forall2_firstn {A B : Type} (R : A -> B -> Prop) (n : nat) (l : list A) (l' : list B) :
  Forall2 R l l' -> Forall2 R (firstn n l) (firstn n l').
Proof.
  intros H. revert n. induction H as [|x y l l' Hxy _ IH]; intros [|n]; simpl;
    constructor; auto.
Qed.

Lemma Forall2_skipn {A B : Type} (R : A -> B -> Prop) (n : nat) (l : list A) (l' : list B) :
  Forall2 R l l' -> Forall2 R (skipn n l) (skipn n l').
Proof.
  intros H. revert n. induction H as [|x y l l' Hxy H IH]; intros [|n]; simpl;
    try constructor; auto.
Qed.

Lemma Forall2_map_same {C A B : Type} (R : A -> B -> Prop) (f : C -> A) (g : C -> B)
      (l : list C) :
  (forall i, In i l -> R (f i) (g i)) -> Forall2 R (map f l) (map g l).
Proof.
  induction l as [|i l IH]; intros H; cbn [map]; constructor.
  - apply H. now left.
  - apply IH. intros k Hk. apply H. now right.
Qed.

Section Related.
Variable nL : nat.
Variable rel : cell -> cell -> Prop.
Hypothesis rel_nan : rel None None.
Hypothesis rel_nan_iff : forall c c', rel c c' -> (c = None <-> c' = None).
Hypothesis rel_mean :
  forall cs cs', Forall2 rel cs cs' -> rel (mean_min_count 1 cs) (mean_min_count 1 cs').

Lemma rel_nth (r r' : row) (j : nat) :
  Forall2 rel r r' -> rel (nth j r None) (nth j r' None).
Proof.
  intros H. revert j. induction H as [|c c' l l' Hc _ IH]; intros [|j]; simpl; auto.
Qed.

Lemma rel_reduce_rows (rs rs' : list row) :
  Forall2 (Forall2 rel) rs rs' ->
  Forall2 rel (reduce_rows nL 1 rs) (reduce_rows nL 1 rs').
Proof.
  intros H. unfold reduce_rows. apply Forall2_map_same. intros j _.
  apply rel_mean.
  induction H as [|r r' l l' Hr _ IH]; cbn [map]; constructor; [|exact IH].
  now apply rel_nth.
Qed.

Lemma rel_nan_row : Forall2 rel (nan_row nL) (nan_row nL).
Proof. unfold nan_row. induction nL as [|n IH]; simpl; constructor; auto. Qed.

Lemma rel_fillna_row (r r' n n' : row) :
  Forall2 rel r r' -> Forall2 rel n n' ->
  Forall2 rel (fillna_row r n) (fillna_row r' n').
Proof.
  unfold fillna_row. intros H. revert n n'.
  induction H as [|c c' l l' Hc _ IH]; intros n n' Hn; [constructor|].
  destruct Hn as [|d d' m m' Hd Hm]; [constructor|].
  cbn [combine map fst snd]. constructor; [|now apply IH].
  destruct (rel_nan_iff c c' Hc) as [H1 H2].
  destruct c as [v|], c' as [v'|]; cbn [fillna]; auto.
  - specialize (H2 eq_refl). discriminate.
  - specialize (H1 eq_refl). discriminate.
Qed.

Lemma rel_lookup (da da' : list (Z * row)) (k : Z) :
  rows_related rel da da' ->
  match lookup Z.eqb k da, lookup Z.eqb k da' with
  | Some r, Some r' => Forall2 rel r r'
  | None, None => True
  | _, _ => False
  end.
Proof.
  intros [Hl Hr]. revert da' Hl Hr.
  induction da as [|[d r] da IH]; intros [|[d' r'] da'] Hl Hr;
    cbn [map fst snd] in *; try discriminate; [exact I|].
  injection Hl as <- Hl. inversion Hr; subst.
  cbn [lookup]. destruct (k =? d); [assumption|now apply IH].
Qed.

Lemma rel_reindex (da da' : list (Z * row)) (k : Z) :
  rows_related rel da da' ->
  Forall2 rel (reindex nL Z.eqb k da) (reindex nL Z.eqb k da').
Proof.
  intros H. assert (Hk := rel_lookup da da' k H). unfold reindex.
  destruct (lookup Z.eqb k da), (lookup Z.eqb k da'); try contradiction; auto.
  apply rel_nan_row.
Qed.

Lemma rel_wnan (g g' : list (Z * row)) :
  rows_related rel g g' ->
  rows_related rel (da_day_clim_wnan nL g) (da_day_clim_wnan nL g').
Proof.
  intros H. assert (Hl := proj1 H). unfold da_day_clim_wnan, combine_first, rows_related.
  rewrite <- Hl. split.
  - now rewrite !map_map.
  - rewrite !map_map. cbn [snd]. apply Forall2_map_same. intros d _.
    apply rel_fillna_row; [now apply rel_reindex|].
    rewrite reindex_nan_template. apply rel_nan_row.
Qed.

Lemma rows_related_length (da da' : list (Z * row)) :
  rows_related rel da da' -> length da = length da'.
Proof. intros [Hl _]. rewrite <- (length_map fst da), Hl. apply length_map. Qed.

Lemma rel_extend (da da' : list (Z * row)) :
  rows_related rel da da' ->
  rows_related rel (extend_periodic da) (extend_periodic da').
Proof.
  intros H. assert (Hlen := rows_related_length da da' H). destruct H as [Hl Hr].
  unfold rows_related. rewrite !extend_periodic_map. split.
  - now rewrite Hl.
  - unfold tail_slice, head_slice. rewrite !length_map, Hlen.
    repeat apply Forall2_app; try assumption.
    + now apply Forall2_skipn.
    + now apply Forall2_firstn.
Qed.

Lemma rel_rolling (da da' : list (Z * row)) :
  rows_related rel da da' ->
  rows_related rel (rolling_mean nL 31 1 da) (rolling_mean nL 31 1 da').
Proof.
  intros H. assert (Hlen := rows_related_length da da' H). destruct H as [Hl Hr].
  unfold rows_related. rewrite !rolling_mean_labels, !rolling_mean_rows, Hlen.
  split; [exact Hl|]. apply Forall2_map_same. intros i _.
  apply rel_reduce_rows. unfold centered_window.
  now apply Forall2_firstn, Forall2_skipn.
Qed.

Lemma rel_isel (a b : nat) (da da' : list (Z * row)) :
  rows_related rel da da' ->
  rows_related rel (isel_slice a b da) (isel_slice a b da').
Proof.
  intros H. assert (Hlen := rows_related_length da da' H). destruct H as [Hl Hr].
  unfold rows_related. rewrite !isel_slice_map. split; [now rewrite Hl|].
  unfold isel_slice. rewrite !length_map, Hlen.
  now apply Forall2_skipn, Forall2_firstn.
Qed.

Lemma rel_smooth_twice (da da' : list (Z * row)) :
  rows_related rel da da' ->
  rows_related rel (smooth_twice nL da) (smooth_twice nL da').
Proof.
  intros H. unfold smooth_twice. cbn [Nat.iter]. unfold smooth_pass.
  now apply rel_isel, rel_rolling, rel_extend, rel_isel, rel_rolling, rel_extend.
Qed.

Lemma rel_sel_each (ks : list Z) (da da' : list (Z * row)) :
  rows_related rel da da' ->
  match sel_each Z.eqb ks da, sel_each Z.eqb ks da' with
  | inl e, inl e' => e = e'
  | inr o, inr o' => rows_related rel o o'
  | _, _ => False
  end.
Proof.
  intros H. induction ks as [|k ks IH]; cbn [sel_each].
  - split; constructor.
  - assert (Hk := rel_lookup da da' k H).
    destruct (lookup Z.eqb k da) as [r|], (lookup Z.eqb k da') as [r'|];
      try contradiction; [|reflexivity].
    destruct (sel_each Z.eqb ks da) as [e|o], (sel_each Z.eqb ks da') as [e'|o'];
      try contradiction; cbn [bind]; [exact IH|].
    destruct IH as [IHl IHr]. split; cbn [map fst snd].
    + now rewrite IHl.
    + now constructor.
Qed.

Lemma rel_smooth (g g' : list (Z * row)) :
  rows_related rel g g' ->
  match da_day_clim_smooth nL g, da_day_clim_smooth nL g' with
  | inl e, inl e' => e = e'
  | inr o, inr o' => rows_related rel o o'
  | _, _ => False
  end.
Proof.
  intros H. unfold da_day_clim_smooth, sel_labels.
  destruct (nL =? 1)%nat; [reflexivity|].
  assert (Hs := rel_smooth_twice _ _ (rel_wnan g g' H)).
  rewrite <- (proj1 Hs), <- (proj1 H).
  destruct (has_duplicates Z.ltb _); [reflexivity|].
  now apply rel_sel_each.
Qed.

Lemma rel_filter_rows (p : Date -> bool) (s s' : Series) :
  series_related rel s s' ->
  Forall2 (Forall2 rel)
          (map snd (filter (fun x => p (fst x)) s))
          (map snd (filter (fun x => p (fst x)) s')).
Proof.
  induction 1 as [|x x' l l' [Hd Hr] _ IH]; [constructor|].
  destruct x as [t r], x' as [t' r']. cbn [fst snd] in *. subst t'.
  cbn [filter fst]. destruct (p t); cbn [map snd]; [constructor|]; assumption.
Qed.

Lemma rel_groupby (s s' : Series) :
  series_related rel s s' ->
  match groupby_dayofyear_mean nL s, groupby_dayofyear_mean nL s' with
  | inl e, inl e' => e = e'
  | inr g, inr g' => rows_related rel g g'
  | _, _ => False
  end.
Proof.
  intros H.
  assert (Hd : map (fun x => dayofyear (fst x)) s = map (fun x => dayofyear (fst x)) s').
  { induction H as [|x x' l l' [Hx _] _ IH]; [reflexivity|].
    cbn [map]. f_equal; [now f_equal|exact IH]. }
  unfold groupby_dayofyear_mean.
  destruct s as [|x s], s' as [|x' s']; try (inversion H; fail); [reflexivity|].
  rewrite <- Hd. unfold Ok. cbv iota. unfold rows_related.
  rewrite !map_map. cbn [fst snd].
  split; [reflexivity|]. apply Forall2_map_same. intros d _.
  apply rel_reduce_rows. apply (rel_filter_rows (fun t => dayofyear t =? d) _ _ H).
Qed.

Lemma rel_engine (s s' : Series) :
  series_related rel s s' ->
  outcomes_related rel (ClimatologyEngine nL s) (ClimatologyEngine nL s').
Proof.
  intros H. assert (Hg := rel_groupby s s' H). unfold ClimatologyEngine, outcomes_related.
  destruct (groupby_dayofyear_mean nL s) as [e|g],
           (groupby_dayofyear_mean nL s') as [e'|g']; try contradiction; cbn [bind];
    [exact Hg|].
  assert (Hs := rel_smooth g g' Hg).
  destruct (da_day_clim_smooth nL g) as [e|o], (da_day_clim_smooth nL g') as [e'|o'];
    try contradiction; cbn [bind fst snd]; [exact Hs|].
  split; assumption.
Qed.

End Related.
Local Open Scope Q_scope.

(** ** Change of unit and pattern of missing values *)







Lemma same_missing_mean (cs cs' : list cell) :
  Forall2 same_missing cs cs' ->
  same_missing (mean_min_count 1 cs) (mean_min_count 1 cs').
Proof.
  intros H. unfold same_missing. rewrite !mean_min_count_1_None.
  induction H as [|c c' l l' Hc _ IH].
  - split; intros _ c [].
  - split; intros Hall x [<-|Hx].
    + apply Hc, Hall. now left.
    + apply (proj1 IH); [|exact Hx]. intros y Hy. apply Hall. now right.
    + apply Hc, Hall. now left.
    + apply (proj2 IH); [|exact Hx]. intros y Hy. apply Hall. now right.
Qed.

Lemma convert_series_same_missing (a b : Q) (s : Series) :
  series_related same_missing s (convert_series a b s).
Proof.
  unfold series_related, convert_series. rewrite <- (map_id s) at 1.
  apply Forall2_map_same. intros x _. split; [reflexivity|].
  cbn [snd]. rewrite <- (map_id (snd x)) at 1.
  apply Forall2_map_same. intros c _. unfold same_missing.
  destruct c; simpl; split; intros E; try discriminate; reflexivity.
Qed.

(** X20: where the climatologies are NaN depends only on where the series
    is NaN: two series with the same start dates and NaN at the same cells
    raise the same exception, or give climatologies with the same index
    and NaN at the same cells, whatever their values. *)
Theorem X20_missing_pattern (nL : nat) (s s' : Series) :
  series_related same_missing s s' ->
  outcomes_related same_missing (ClimatologyEngine nL s) (ClimatologyEngine nL s').
Proof.
  intros H. apply rel_engine.
  - unfold same_missing. tauto.
  - intros c c' Hc. exact Hc.
  - apply same_missing_mean.
  - exact H.
Qed.

Lemma X20_missing_pattern_witness :
  outcomes_related same_missing
                   (ClimatologyEngine 2 series_common_year)
                   (ClimatologyEngine 2 (convert_series 2 1 series_common_year)).
Proof.
  apply (X20_missing_pattern 2 series_common_year
           (convert_series 2 1 series_common_year)).
  apply convert_series_same_missing.
Defined.
Local Open Scope Z_scope.

(** ** File names (lines 31-32 and 57-58) *)

Lemma append_same_prefix (a x y : string) :
  (a ++ x)%string = (a ++ y)%string -> x = y.
Proof.
  induction a as [|c a IH]; cbn [String.append]; [auto|].
  intros H. injection H as H. now apply IH.
Qed.

Lemma append_same_length (a a' x x' : string) :
  String.length a = String.length a' ->
  (a ++ x)%string = (a' ++ x')%string -> a = a' /\ x = x'.
Proof.
  revert a'. induction a as [|c a IH]; intros [|c' a'] Hlen H;
    cbn [String.length String.append] in *; try discriminate; [auto|].
  injection H as -> H. injection Hlen as Hlen.
  destruct (IH a' Hlen H) as [-> ->]. auto.
Qed.

(** X21: the raw and the smoothed climatology are never written to the
    same path, whatever the two date strings are; and with dates printed
    by [strftime('%Y-%m-%d')] two file names agree only for the same first
    date, the same last date and the same base name. *)
Theorem X21_file_names_distinct
        (outclimDir starttime endtime ysave xsave : string)
        (a b a' b' : Date) (f f' : string) :
  printable a -> printable b -> printable a' -> printable b' ->
  (outclimDir ++ prefixed starttime endtime (climfname ysave xsave))%string
  <> (outclimDir ++ prefixed starttime endtime (sclimfname ysave xsave))%string
  /\ (prefixed (strftime_Ymd a) (strftime_Ymd b) f
      = prefixed (strftime_Ymd a') (strftime_Ymd b') f' ->
      a = a' /\ b = b' /\ f = f').
Proof.
  intros (Hya & Hma & Hda) (Hyb & Hmb & Hdb) (Hya' & Hma' & Hda') (Hyb' & Hmb' & Hdb').
  split.
  - intros H. unfold prefixed in H.
    do 5 apply append_same_prefix in H. discriminate.
  - intros H. unfold prefixed in H.
    apply append_same_length in H; [|reflexivity]. destruct H as [Ea H].
    apply append_same_prefix in H.
    apply append_same_length in H; [|reflexivity]. destruct H as [Eb H].
    apply append_same_prefix in H.
    split; [|split; [|exact H]].
    + rewrite <- (parse_strftime a), <- (parse_strftime a'), Ea by assumption.
      reflexivity.
    + rewrite <- (parse_strftime b), <- (parse_strftime b'), Eb by assumption.
      reflexivity.
Qed.

Lemma X21_file_names_distinct_witness :
  ("clim/" ++ prefixed "1999-01-07" "2015-12-31" (climfname "37" "242"))%string
  <> ("clim/" ++ prefixed "1999-01-07" "2015-12-31" (sclimfname "37" "242"))%string
  /\ (prefixed (strftime_Ymd (mkDate 1999 1 7)) (strftime_Ymd (mkDate 2015 12 31))
                (climfname "37" "242")
      = prefixed (strftime_Ymd (mkDate 1999 1 7)) (strftime_Ymd (mkDate 2015 12 31))
                 (climfname "37" "242") ->
      mkDate 1999 1 7 = mkDate 1999 1 7 /\ mkDate 2015 12 31 = mkDate 2015 12 31
      /\ climfname "37" "242" = climfname "37" "242").
Proof.
  apply (X21_file_names_distinct "clim/" "1999-01-07" "2015-12-31" "37" "242"
           (mkDate 1999 1 7) (mkDate 2015 12 31) (mkDate 1999 1 7) (mkDate 2015 12 31));
    unfold printable; cbn [year month day]; lia.
Defined.

(** ** Which gaps the smoothing fills *)

Lemma offset_split (u : nat) :
  (u < 61)%nat -> exists s t, (s < 31)%nat /\ (t < 31)%nat /\ u = (s + t)%nat.
Proof.
  intros H. exists (Nat.min u 30), (u - Nat.min u 30)%nat. lia.
Qed.

(** X22: on an array of at least 30 entries a value is NaN after the two
    passes exactly when the 61 values from 30 before to 30 after it around
    the circle are all NaN: a run of fewer than 61 missing days is filled
    completely. *)
Theorem X22_gaps_filled (nL : nat) (da : list (Z * row)) (k j : nat) :
  (30 <= length da)%nat -> (k < length da)%nat -> (j < nL)%nat ->
  cell_of (smooth_twice nL da) k j = None
  <-> forall u, (u < 61)%nat -> cell_of da (around (length da) k u 30) j = None.
Proof.
  intros Hn Hk Hj. set (n := length da) in *.
  change (smooth_twice nL da) with (smooth_pass nL (smooth_pass nL da)).
  assert (Hlen1 : length (smooth_pass nL da) = n) by (apply smooth_pass_length; lia).
  rewrite pass_cell, mean_min_count_1_None by (rewrite ?Hlen1; try assumption; lia).
  rewrite Hlen1. split.
  - intros H u Hu. destruct (offset_split u Hu) as (s & t & Hs & Ht & ->).
    assert (H1 : cell_of (smooth_pass nL da) (around n k s 15) j = None).
    { apply H. apply in_map_iff. exists s. split; [reflexivity|]. apply in_seq. lia. }
    rewrite pass_cell, mean_min_count_1_None in H1
      by (try assumption; try lia; apply around_lt; lia).
    fold n in H1. rewrite <- around_around by lia.
    apply H1. apply in_map_iff. exists t. split; [reflexivity|]. apply in_seq. lia.
  - intros H c Hc. apply in_map_iff in Hc. destruct Hc as (s & <- & Hs).
    apply in_seq in Hs.
    rewrite pass_cell, mean_min_count_1_None
      by (try assumption; try lia; apply around_lt; lia).
    intros c Hc. apply in_map_iff in Hc. destruct Hc as (t & <- & Ht).
    apply in_seq in Ht. fold n. rewrite around_around by lia. apply H. lia.
Qed.

Lemma X22_gaps_filled_witness :
  cell_of (smooth_twice 2 (da_day_clim_wnan 2 clim_three_days)) 100 0 = None
  <-> forall u, (u < 61)%nat ->
                cell_of (da_day_clim_wnan 2 clim_three_days)
                        (around (length (da_day_clim_wnan 2 clim_three_days)) 100 u 30) 0
                = None.
Proof.
  apply (X22_gaps_filled 2 (da_day_clim_wnan 2 clim_three_days) 100 0).
  - vm_compute. lia.
  - vm_compute. lia.
  - lia.
Defined.
